(** * SKS parcel payment tracker: the ledger store of [sks.py]

    A shallow embedding of the helper functions of [sks.py]
    ([add_customer], [delete_customer], [get_customers], [save_week_data],
    [get_weeks_for_customer], [get_week_data]), of the balance column
    computed by the weekly table and of the pending total shown by the
    metrics and the invoice.

    Modelling decisions.
    - The SQLite database reached through the global connection [conn] and
      cursor [c] is a value of type [db]; every Python helper is a
      computation in a state-and-exception monad [M] over it.
    - A table is the list of its rows in rowid order.  Both tables are
      declared [INTEGER PRIMARY KEY AUTOINCREMENT], so an [INSERT] takes a
      rowid above every rowid the table ever held and the new row goes to
      the end of the list; a [SELECT] without [ORDER BY] scans the table in
      that order.
    - A frame cell holding an amount is an integer, taken as a [Z]: the
      page's columns are [int64], built from [[0]*7].  The columns
      [total], [received] and [balance] of the table are declared [REAL]:
      an [INSERT] keeps of an integer the nearest double ([to_real]), and
      a [SELECT] hands that value back.  A sum over a column is taken in
      the column's own arithmetic: wrapping for [int64], rounding for
      [float64], missing cells skipped.
    - [week_start] is a calendar date ([datetime.date] on the way in, its
      ISO text in the table); two dates are the same key exactly when
      their year, month and day agree.
    - [conn.commit()] makes the pending statements durable; the single
      connection sees its own statements at once, so [commit] does not
      change the state the helpers observe.
    - Of the page itself, the lookup of the selected customer in
      [customer_dict] and the computation of the week a save is filed
      under are modelled; for the latter a date is taken by its ordinal,
      on which [datetime] defines [weekday] and the subtraction of days. *)

From Stdlib Require Import ZArith List String Bool Lia Sorted Permutation.
Import ListNotations.

Local Open Scope Z_scope.

(** ** Data model *)

(** [datetime.date]. *)
Record date := mkDate { year : Z; month : Z; mday : Z }.

Definition date_eqb (a b : date) : bool :=
  (year a =? year b) && (month a =? month b) && (mday a =? mday b).

(** A row of table [customers (id, name)]. *)
Record customer := mkCustomer { cust_id : Z; cust_name : string }.

(** A row of table [weekly_payments
    (id, customer_id, week_start, day, total, received, balance)]. *)
Record payment := mkPayment {
  pay_id : Z;
  customer_id : Z;
  week_start : date;
  day : string;
  total : Z;
  received : Z;
  balance : Z
}.

(** The database: both tables and, for each, the [sqlite_sequence] counter
    kept for [AUTOINCREMENT] (the largest rowid the table ever held). *)
Record db := mkDb {
  customers : list customer;
  customers_seq : Z;
  weekly_payments : list payment;
  weekly_payments_seq : Z
}.

(** The file as [CREATE TABLE IF NOT EXISTS] leaves it on first start. *)
Definition empty_db : db := mkDb [] 0 [] 0.

(** A row of the frame edited in the weekly table, with every cell filled
    in: columns [Day], [Total], [Received]. *)
Record entry := mkEntry { eDay : string; eTotal : Z; eReceived : Z }.

(** A row of a frame with columns [Day], [Total], [Received], [Balance],
    every cell filled in: what [save_week_data] reads and [get_week_data]
    builds. *)
Record row := mkRow { Day : string; Total : Z; Received : Z; Balance : Z }.

(** ** The state-and-exception monad of the helpers *)

(** Exceptions [sqlite3] raises on these statements. *)
Inductive exn := IntegrityError.

Inductive outcome (A : Type) : Type :=
| Returned (a : A) (s : db)
| Raised (e : exn) (s : db).
Arguments Returned {A} a s.
Arguments Raised {A} e s.

Definition M (A : Type) : Type := db -> outcome A.

Definition ret {A} (a : A) : M A := fun s => Returned a s.

Definition bind {A B} (m : M A) (k : A -> M B) : M B :=
  fun s => match m s with
           | Returned a s' => k a s'
           | Raised e s' => Raised e s'
           end.

(** [try: body  except: handler]. *)
Definition try_except {A} (body : M A) (handler : exn -> M A) : M A :=
  fun s => match body s with
           | Returned a s' => Returned a s'
           | Raised e s' => handler e s'
           end.

Declare Scope db_scope.
Delimit Scope db_scope with db.
Notation "x <- m ;; k" := (bind m (fun x => k))
  (at level 100, m at next level, right associativity) : db_scope.
Notation "m ;; k" := (bind m (fun _ => k))
  (at level 100, right associativity) : db_scope.
Local Open Scope db_scope.

(** [for _, x in xs: body x]. *)
Fixpoint for_each {A} (xs : list A) (body : A -> M unit) : M unit :=
  match xs with
  | [] => ret tt
  | x :: xs' => body x ;; for_each xs' body
  end.

(** The state a computation leaves, and the value it returns if it returns. *)
Definition state_of {A} (o : outcome A) : db :=
  match o with Returned _ s => s | Raised _ s => s end.

Definition value_of {A} (o : outcome A) : option A :=
  match o with Returned a _ => Some a | Raised _ _ => None end.

(** ** SQL statements *)

Fixpoint max_rowid (ids : list Z) : Z :=
  match ids with
  | [] => 0
  | i :: ids' => Z.max i (max_rowid ids')
  end.

(** The rowid [AUTOINCREMENT] picks: one more than the largest rowid the
    table holds or has held. *)
Definition next_rowid (seq : Z) (ids : list Z) : Z :=
  Z.max seq (max_rowid ids) + 1.

Definition name_taken (name : string) (s : db) : bool :=
  existsb (fun cu => String.eqb (cust_name cu) name) (customers s).

(** [INSERT INTO customers (name) VALUES (?)]; column [name] is [UNIQUE]. *)
Definition insert_customer (name : string) : M unit :=
  fun s =>
    if name_taken name s then Raised IntegrityError s
    else
      let i := next_rowid (customers_seq s) (map cust_id (customers s)) in
      Returned tt (mkDb (customers s ++ [mkCustomer i name]) i
                        (weekly_payments s) (weekly_payments_seq s)).

(** [DELETE FROM weekly_payments WHERE customer_id=?]. *)
Definition delete_payments_of_customer (cid : Z) : M unit :=
  fun s =>
    Returned tt (mkDb (customers s) (customers_seq s)
                      (filter (fun p => negb (customer_id p =? cid))
                              (weekly_payments s))
                      (weekly_payments_seq s)).

(** [DELETE FROM customers WHERE id=?]. *)
Definition delete_customer_row (cid : Z) : M unit :=
  fun s =>
    Returned tt (mkDb (filter (fun cu => negb (cust_id cu =? cid))
                              (customers s))
                      (customers_seq s)
                      (weekly_payments s) (weekly_payments_seq s)).

(** [WHERE customer_id=? AND week_start=?]. *)
Definition in_week (cid : Z) (w : date) (p : payment) : bool :=
  (customer_id p =? cid) && date_eqb (week_start p) w.

(** [DELETE FROM weekly_payments WHERE customer_id=? AND week_start=?]. *)
Definition delete_week (cid : Z) (w : date) : M unit :=
  fun s =>
    Returned tt (mkDb (customers s) (customers_seq s)
                      (filter (fun p => negb (in_week cid w p))
                              (weekly_payments s))
                      (weekly_payments_seq s)).

(** The value a [REAL] column keeps of an integer: the nearest IEEE 754
    double, ties going to the even significand.  An integer of magnitude
    up to [2^53] is kept as it is; of a larger one the 53 leading bits
    remain, rounded. *)
Definition to_real (z : Z) : Z :=
  let a := Z.abs z in
  if a <=? 2 ^ 53 then z
  else
    let e := Z.log2 a - 52 in
    let q := a / 2 ^ e in
    let r := a mod 2 ^ e in
    let h := 2 ^ (e - 1) in
    let q' := if r <? h then q
              else if h <? r then q + 1
              else if Z.even q then q else q + 1 in
    Z.sgn z * (q' * 2 ^ e).
Arguments to_real : simpl never.

(** [INSERT INTO weekly_payments
     (customer_id, week_start, day, total, received, balance)
     VALUES (?, ?, ?, ?, ?, ?)]; the three amounts go into [REAL]
    columns.  The cells bound here come from a frame, whose integers are
    [int64]; [sqlite3] raises [OverflowError] only for an integer outside
    that range, which no frame cell is. *)
Definition insert_payment (cid : Z) (w : date) (d : string) (t r b : Z)
  : M unit :=
  fun s =>
    let i := next_rowid (weekly_payments_seq s)
                        (map pay_id (weekly_payments s)) in
    Returned tt (mkDb (customers s) (customers_seq s)
                      (weekly_payments s ++
                         [mkPayment i cid w d (to_real t) (to_real r) (to_real b)])
                      i).

(** [SELECT * FROM customers], fetched as tuples. *)
Definition select_customers : M (list (Z * string)) :=
  fun s => Returned (map (fun cu => (cust_id cu, cust_name cu)) (customers s)) s.

(** [DISTINCT]: each value once, at its first occurrence. *)
Fixpoint distinct (ws : list date) : list date :=
  match ws with
  | [] => []
  | w :: ws' => w :: filter (fun v => negb (date_eqb v w)) (distinct ws')
  end.

(** [SELECT DISTINCT week_start FROM weekly_payments WHERE customer_id=?]. *)
Definition select_weeks (cid : Z) : M (list date) :=
  fun s =>
    Returned (distinct (map week_start
                (filter (fun p => customer_id p =? cid) (weekly_payments s)))) s.

Definition row_of_payment (p : payment) : row :=
  mkRow (day p) (total p) (received p) (balance p).

(** [SELECT day, total, received, balance FROM weekly_payments
     WHERE customer_id=? AND week_start=?]. *)
Definition select_week (cid : Z) (w : date) : M (list row) :=
  fun s =>
    Returned (map row_of_payment (filter (in_week cid w) (weekly_payments s))) s.

(** [conn.commit()]. *)
Definition commit : M unit := ret tt.

(** ** The helper functions of [sks.py] *)

Definition add_customer (name : string) : M unit :=
  try_except (insert_customer name ;; commit) (fun _ => ret tt).

(** Statements executed one after the other. *)
Fixpoint run_statements (ms : list (M unit)) : M unit :=
  match ms with
  | [] => ret tt
  | m :: ms' => m ;; run_statements ms'
  end.

(** The states a run of the statements passes through: the state each
    statement leaves, in turn. *)
Fixpoint states_through (ms : list (M unit)) (s : db) : list db :=
  match ms with
  | [] => []
  | m :: ms' => state_of (m s) :: states_through ms' (state_of (m s))
  end.

(** The statements of [delete_customer], in the order of the source: the
    customer's weekly rows go first, the customer after them. *)
Definition delete_customer_statements (cid : Z) : list (M unit) :=
  [ delete_payments_of_customer cid; delete_customer_row cid; commit ].

Definition delete_customer (cid : Z) : M unit :=
  run_statements (delete_customer_statements cid).

Definition get_customers : M (list (Z * string)) := select_customers.

Definition save_week_data (cid : Z) (w : date) (df : list row) : M unit :=
  delete_week cid w ;;
  for_each df (fun r =>
    insert_payment cid w (Day r) (Total r) (Received r) (Balance r)) ;;
  commit.

Definition get_weeks_for_customer (cid : Z) : M (list date) :=
  select_weeks cid.

Definition get_week_data (cid : Z) (w : date) : M (list row) :=
  select_week cid w.

(** ** The weekly table *)

(** [temp_df["Balance"] = temp_df["Total"] - temp_df["Received"]]. *)
Definition assign_balance (temp_df : list entry) : list row :=
  map (fun e => mkRow (eDay e) (eTotal e) (eReceived e)
                      (eTotal e - eReceived e)) temp_df.

(** *** Sums over a column *)

(** A cell of a [float64] column: a number, or missing ([NaN]). *)
Definition cell := option Z.

(** The cells that are not missing. *)
Fixpoint present (xs : list cell) : list Z :=
  match xs with
  | [] => []
  | Some x :: xs' => x :: present xs'
  | None :: xs' => present xs'
  end.

(** [int64] arithmetic keeps the low 64 bits, read as a signed number. *)
Definition wrap64 (z : Z) : Z := (z + 2 ^ 63) mod 2 ^ 64 - 2 ^ 63.
Arguments wrap64 : simpl never.

(** The sum of an [int64] column. *)
Definition sum_int64 (xs : list Z) : Z :=
  fold_left (fun a x => wrap64 (a + x)) xs 0.

(** The sum of [float64] cells added one by one from the first, each
    addition rounded to the nearest double. *)
Definition sum_float64 (xs : list Z) : Z :=
  fold_left (fun a x => to_real (a + x)) xs 0.

(** The sums that rounded additions can give when the cells are grouped or
    ordered otherwise, as numpy does from eight cells on. *)
Inductive float_sums : list Z -> Z -> Prop :=
| float_sums_nil : float_sums [] 0
| float_sums_one (x : Z) : float_sums [x] x
| float_sums_add (l1 l2 : list Z) (a b : Z) :
    float_sums l1 a -> float_sums l2 b ->
    float_sums (l1 ++ l2) (to_real (a + b))
| float_sums_perm (l l' : list Z) (a : Z) :
    Permutation l l' -> float_sums l a -> float_sums l' a.

(** A numeric column of a frame, with its dtype: [int64] has no missing
    cell, [float64] may have some. *)
Inductive column :=
| Int64Column (xs : list Z)
| Float64Column (xs : list cell).

(** [df["Balance"].sum()]: the pending total of the metrics and of the
    invoice footer ([total_balance] in [generate_invoice_pdf]).  Missing
    cells are skipped; the sum of no cell is [0]. *)
Definition total_balance (col : column) : Z :=
  match col with
  | Int64Column xs => sum_int64 xs
  | Float64Column xs => sum_float64 (present xs)
  end.

(** The [Balance] column of the page's frame: computed from two [int64]
    columns. *)
Definition page_balance (df : list row) : column :=
  Int64Column (map Balance df).

(** The [Balance] column of a frame read from the store: [REAL] values. *)
Definition stored_balance (df : list row) : column :=
  Float64Column (map (fun r => Some (Balance r)) df).

(** The frame the weekly table starts from. *)
Definition days : list string :=
  ["Mon"; "Tue"; "Wed"; "Thu"; "Fri"; "Sat"; "Sun"]%string.

Definition initial_week : list entry := map (fun d => mkEntry d 0 0) days.

(** ** Sequences of calls *)

(** A call of one of the three mutating helpers. *)
Inductive op :=
| AddCustomer (name : string)
| DeleteCustomer (cid : Z)
| SaveWeek (cid : Z) (w : date) (df : list row).

Definition run_op (o : op) (s : db) : db :=
  match o with
  | AddCustomer name => state_of (add_customer name s)
  | DeleteCustomer cid => state_of (delete_customer cid s)
  | SaveWeek cid w df => state_of (save_week_data cid w df s)
  end.

Definition run_ops (ops : list op) (s : db) : db :=
  fold_left (fun s' o => run_op o s') ops s.

(** ** Predicates on the stored state *)

Definition customer_ids (s : db) : list Z := map cust_id (customers s).

Definition customer_names (s : db) : list string := map cust_name (customers s).

(** The [UNIQUE] constraint of column [customers.name]. *)
Definition unique_names (s : db) : Prop := NoDup (customer_names s).

(** How many of the listed customers carry the name [n]. *)
Definition count_name (n : string) (l : list (Z * string)) : nat :=
  List.length (filter (fun c => String.eqb (snd c) n) l).

Definition nonneg_row (r : row) : Prop := 0 <= Total r /\ 0 <= Received r.

Definition nonneg_payment (p : payment) : Prop := 0 <= total p /\ 0 <= received p.

(** No stored row has a negative [total] or [received]. *)
Definition nonneg_store (s : db) : Prop := Forall nonneg_payment (weekly_payments s).

(** Every [SaveWeek] of the sequence passes rows with non-negative [Total]
    and [Received], as the number columns of the weekly table
    ([min_value=0]) hand them over. *)
Definition nonneg_op (o : op) : Prop :=
  match o with
  | SaveWeek _ _ df => Forall nonneg_row df
  | _ => True
  end.

(** Every stored row's [customer_id] is the id of a stored customer. *)
Definition ref_integrity (s : db) : Prop :=
  Forall (fun p => In (customer_id p) (customer_ids s)) (weekly_payments s).

(** The customer a [SaveWeek] is called for is stored at the time of the
    call: the id the page passes is that of the customer selected from
    [get_customers ()]. *)
Definition known_customer (o : op) (s : db) : Prop :=
  match o with
  | SaveWeek cid _ _ => In cid (customer_ids s)
  | _ => True
  end.

Fixpoint guarded (ops : list op) (s : db) : Prop :=
  match ops with
  | [] => True
  | o :: ops' => known_customer o s /\ guarded ops' (run_op o s)
  end.

(** A frame row as the [REAL] columns keep it. *)
Definition real_row (r : row) : row :=
  mkRow (Day r) (to_real (Total r)) (to_real (Received r)) (to_real (Balance r)).

(** The rows one save inserts: they carry the key of the save and the
    frame's cells as the columns keep them, in the frame's order. *)
Definition inserted (cid : Z) (w : date) (df : list row) (new : list payment) : Prop :=
  map row_of_payment new = map real_row df /\
  Forall (fun p => in_week cid w p = true) new.

(** An integer within [int64]. *)
Definition int64_amount (z : Z) : Prop := - 2 ^ 63 <= z < 2 ^ 63.

(** An [int64] that a [REAL] column keeps exactly. *)
Definition exact_amount (z : Z) : Prop := int64_amount z /\ to_real z = z.

Definition int64_row (r : row) : Prop :=
  int64_amount (Total r) /\ int64_amount (Received r) /\ int64_amount (Balance r).

Definition exact_row (r : row) : Prop :=
  exact_amount (Total r) /\ exact_amount (Received r) /\ exact_amount (Balance r).

(** ** Further predicates on the stored state *)





(** The rowids of a table: strictly increasing down the table and none
    above the table's [sqlite_sequence] counter. *)
Definition rowids_ok (ids : list Z) (seq : Z) : Prop :=
  StronglySorted Z.lt ids /\ Forall (fun i => i <= seq) ids.

Definition keys_ok (s : db) : Prop :=
  rowids_ok (customer_ids s) (customers_seq s) /\
  rowids_ok (map pay_id (weekly_payments s)) (weekly_payments_seq s).

(** ** The page's customer lookup *)

(** [d[k] = v] on a dict, kept as its items in insertion order: an existing
    key keeps its place and takes the new value. *)
Fixpoint dict_set (k : string) (v : Z) (d : list (string * Z)) : list (string * Z) :=
  match d with
  | [] => [(k, v)]
  | (k', v') :: d' =>
      if String.eqb k' k then (k', v) :: d' else (k', v') :: dict_set k v d'
  end.

(** [d[k]]; [None] stands for [KeyError]. *)
Fixpoint dict_get (k : string) (d : list (string * Z)) : option Z :=
  match d with
  | [] => None
  | (k', v') :: d' => if String.eqb k' k then Some v' else dict_get k d'
  end.

(** [list(d.keys())]. *)
Definition dict_keys (d : list (string * Z)) : list string := map fst d.

(** [customer_dict = {c[1]: c[0] for c in customers}]. *)
Definition customer_dict (cs : list (Z * string)) : list (string * Z) :=
  fold_left (fun d c => dict_set (snd c) (fst c) d) cs [].

(** ** The week a save is filed under *)

(** A [datetime.date] is taken here by its proleptic Gregorian ordinal
    ([date.toordinal ()], day 1 being 0001-01-01), on which the library
    defines both operations the page uses. *)

Definition MAXORDINAL : Z := 3652059.

(** [d.weekday ()]: [0] for Monday up to [6] for Sunday. *)
Definition weekday (ordinal : Z) : Z := (ordinal + 6) mod 7.

(** [d - datetime.timedelta(days=n)]; [None] stands for the
    [OverflowError] of a result outside [date.min .. date.max]. *)
Definition date_minus_days (ordinal n : Z) : option Z :=
  let o := ordinal - n in
  if (0 <? o) && (o <=? MAXORDINAL) then Some o else None.

(** [datetime.date.today() -
     datetime.timedelta(days=datetime.date.today().weekday())]:
    the clock is read twice, first for the left operand. *)
Definition current_week_start (today1 today2 : Z) : option Z :=
  date_minus_days today1 (weekday today2).

(** ** The pending total as the specification words it *)

(** The sum of [balance] over the rows, row by row, given the balance of
    each row; [0] for no rows. *)
Fixpoint weekPendingTotal_spec (balances : list Z) : Z :=
  match balances with
  | [] => 0
  | b :: balances' => b + weekPendingTotal_spec balances'
  end.

(** ** Sample data *)

Definition week_2024_06_03 : date := mkDate 2024 6 3.

Definition week_2024_06_10 : date := mkDate 2024 6 10.

(** The weekly table with Monday and Tuesday filled in. *)
Definition ravi_entries : list entry :=
  [ mkEntry "Mon" 100 40; mkEntry "Tue" 50 50; mkEntry "Wed" 0 0;
    mkEntry "Thu" 0 0; mkEntry "Fri" 0 0; mkEntry "Sat" 0 0;
    mkEntry "Sun" 0 0 ]%string.

Definition ravi_week : list row := assign_balance ravi_entries.

Definition short_week : list row :=
  [ mkRow "Mon" 10 0 10; mkRow "Tue" 20 5 15; mkRow "Wed" 30 30 0 ]%string.

(** A frame with an amount above [2^53]. *)
Definition large_week : list row :=
  [ mkRow "Mon" (2 ^ 53 + 1) 0 (2 ^ 53 + 1) ]%string.

(** A frame of the page whose balances add up to [2^63]. *)
Definition huge_week : list row :=
  [ mkRow "Mon" (2 ^ 62) 0 (2 ^ 62); mkRow "Tue" (2 ^ 62) 0 (2 ^ 62) ]%string.

(** A balance column in which the first cell is missing. *)
Definition column_with_gap : column := Float64Column [None; Some 2].


(** Customer "Ravi" (id 1) with the week of 2024-06-03 saved. *)
Definition ravi_db : db :=
  state_of ((add_customer "Ravi" ;;
             save_week_data 1 week_2024_06_03 ravi_week) empty_db).

(** Two customers, each with the week of 2024-06-03 saved. *)
Definition two_customers_db : db :=
  state_of ((add_customer "Ravi" ;; add_customer "Acme" ;;
             save_week_data 1 week_2024_06_03 ravi_week ;;
             save_week_data 2 week_2024_06_03 short_week) empty_db).

(** A session of the page: two customers added, weeks saved for both, the
    first customer deleted. *)
Definition sample_session : list op :=
  [ AddCustomer "Ravi"; AddCustomer "Acme";
    SaveWeek 1 week_2024_06_03 ravi_week;
    SaveWeek 2 week_2024_06_03 short_week;
    SaveWeek 1 week_2024_06_03 short_week;
    DeleteCustomer 1;
    SaveWeek 2 week_2024_06_10 ravi_week ].

(** 2024-06-03, a Monday, by its ordinal. *)
Definition ordinal_2024_06_03 : Z := 739040.

(** * Properties *)

(** Replaces a closed term of the goal, or of a hypothesis, by its value. *)
Ltac evaluate t :=
  let v := eval vm_compute in t in change t with v.

Ltac evaluate_in t H :=
  let v := eval vm_compute in t in change t with v in H.

(** ** Keys *)

Lemma date_eqb_refl (w : date) : date_eqb w w = true.
Proof. unfold date_eqb. now rewrite !Z.eqb_refl. Qed.

Lemma date_eqb_eq (a b : date) : date_eqb a b = true <-> a = b.
Proof.
  split.
  - unfold date_eqb. rewrite !andb_true_iff, !Z.eqb_eq.
    destruct a, b; simpl. intros [[-> ->] ->]. reflexivity.
  - intros ->. apply date_eqb_refl.
Qed.

Lemma in_week_iff cid w p :
  in_week cid w p = true <-> customer_id p = cid /\ week_start p = w.
Proof.
  unfold in_week. now rewrite andb_true_iff, Z.eqb_eq, date_eqb_eq.
Qed.

Lemma in_week_other cid w cid' w' p :
  (cid', w') <> (cid, w) -> in_week cid w p = true -> in_week cid' w' p = false.
Proof.
  intros Hne Hp. apply in_week_iff in Hp. destruct Hp as [Hc Hw].
  destruct (in_week cid' w' p) eqn:E; [|reflexivity].
  apply in_week_iff in E. destruct E as [Hc' Hw'].
  exfalso. apply Hne. congruence.
Qed.

(** ** Filters over a table *)

Lemma filter_all {A} (f : A -> bool) (l : list A) :
  Forall (fun x => f x = true) l -> filter f l = l.
Proof.
  induction 1 as [|x l Hx _ IH]; simpl; [reflexivity|].
  now rewrite Hx, IH.
Qed.

Lemma filter_none {A} (f : A -> bool) (l : list A) :
  Forall (fun x => f x = false) l -> filter f l = [].
Proof.
  induction 1 as [|x l Hx _ IH]; simpl; [reflexivity|].
  now rewrite Hx.
Qed.

Lemma filter_filter_neg {A} (f : A -> bool) (l : list A) :
  filter f (filter (fun x => negb (f x)) l) = [].
Proof.
  apply filter_none, Forall_forall. intros x Hx.
  apply filter_In in Hx. destruct Hx as [_ Hx].
  now destruct (f x).
Qed.

Lemma filter_filter_keep {A} (f g : A -> bool) (l : list A) :
  (forall x, f x = true -> g x = true) ->
  filter f (filter g l) = filter f l.
Proof.
  intros Hfg. induction l as [|x l IH]; simpl; [reflexivity|].
  destruct (g x) eqn:Eg; simpl.
  - now rewrite IH.
  - destruct (f x) eqn:Ef; [|exact IH].
    apply Hfg in Ef. congruence.
Qed.

(** ** Amounts in a [REAL] column *)

Lemma to_real_small (z : Z) : Z.abs z <= 2 ^ 53 -> to_real z = z.
Proof.
  intros H. unfold to_real. cbv zeta.
  destruct (Z.leb_spec (Z.abs z) (2 ^ 53)); [reflexivity|lia].
Qed.

Lemma to_real_nonneg (z : Z) : 0 <= z -> 0 <= to_real z.
Proof.
  intros Hz. unfold to_real. cbv zeta.
  destruct (Z.leb_spec (Z.abs z) (2 ^ 53)) as [_|Hbig]; [exact Hz|].
  assert (Hpos : 0 < z) by lia. rewrite (Z.sgn_pos z Hpos), Z.mul_1_l.
  set (a := Z.abs z). set (e := Z.log2 a - 52).
  assert (Hp : 0 <= 2 ^ e) by apply Z.pow_nonneg, Z.le_0_2.
  assert (Hq : 0 <= a / 2 ^ e) by (apply Z_div_nonneg_nonneg; unfold a; lia).
  apply Z.mul_nonneg_nonneg; [|exact Hp].
  destruct (a mod 2 ^ e <? 2 ^ (e - 1)); [exact Hq|].
  destruct (2 ^ (e - 1) <? a mod 2 ^ e); [lia|].
  destruct (Z.even (a / 2 ^ e)); lia.
Qed.

Lemma real_row_exact (r : row) : exact_row r -> real_row r = r.
Proof.
  intros ([_ Ht] & [_ Hr] & [_ Hb]). unfold real_row.
  rewrite Ht, Hr, Hb. now destruct r.
Qed.

Lemma map_real_row_exact (df : list row) :
  Forall exact_row df -> map real_row df = df.
Proof.
  induction 1 as [|r df Hr _ IH]; simpl; [reflexivity|].
  now rewrite (real_row_exact r Hr), IH.
Qed.

(** ** What [save_week_data] does to the state *)

Lemma for_each_insert_run cid w df : forall s,
  exists new seq',
    for_each df (fun r =>
      insert_payment cid w (Day r) (Total r) (Received r) (Balance r)) s
    = Returned tt (mkDb (customers s) (customers_seq s)
                        (weekly_payments s ++ new) seq')
    /\ inserted cid w df new.
Proof.
  induction df as [|r df IH]; intros s.
  - exists [], (weekly_payments_seq s). split.
    + simpl. unfold ret. rewrite app_nil_r. now destruct s.
    + split; [reflexivity|constructor].
  - simpl. unfold bind at 1. unfold insert_payment at 1.
    match goal with |- context [for_each df ?b ?s1] =>
      destruct (IH s1) as (new & seq' & Hrun & Hmap & Hkey) end.
    rewrite Hrun. simpl. rewrite <- app_assoc. simpl.
    eexists _, seq'. split; [reflexivity|]. split.
    + simpl. rewrite Hmap. reflexivity.
    + constructor; [|exact Hkey].
      apply in_week_iff. simpl. split; reflexivity.
Qed.

Lemma save_week_data_run cid w df s :
  exists new seq',
    save_week_data cid w df s
    = Returned tt (mkDb (customers s) (customers_seq s)
                        (filter (fun p => negb (in_week cid w p))
                                (weekly_payments s) ++ new) seq')
    /\ inserted cid w df new.
Proof.
  unfold save_week_data, bind, delete_week, commit, ret.
  match goal with |- context [for_each df ?b ?s1] =>
    destruct (for_each_insert_run cid w df s1) as (new & seq' & Hrun & Hins) end.
  rewrite Hrun. simpl. exists new, seq'. split; [reflexivity|exact Hins].
Qed.

Lemma get_week_data_after_save cid w df s :
  get_week_data cid w (state_of (save_week_data cid w df s))
  = Returned (map real_row df) (state_of (save_week_data cid w df s)).
Proof.
  destruct (save_week_data_run cid w df s) as (new & seq' & Hrun & Hmap & Hkey).
  rewrite Hrun. simpl. unfold get_week_data, select_week. simpl.
  rewrite filter_app, filter_filter_neg, (filter_all _ new Hkey). simpl.
  now rewrite Hmap.
Qed.

Lemma save_week_data_returns cid w df s :
  save_week_data cid w df s = Returned tt (state_of (save_week_data cid w df s)).
Proof.
  destruct (save_week_data_run cid w df s) as (new & seq' & Hrun & _).
  now rewrite Hrun.
Qed.

Lemma get_week_data_other cid w df cid' w' s :
  (cid', w') <> (cid, w) ->
  filter (in_week cid' w') (weekly_payments (state_of (save_week_data cid w df s)))
  = filter (in_week cid' w') (weekly_payments s).
Proof.
  intros Hne.
  destruct (save_week_data_run cid w df s) as (new & seq' & Hrun & Hmap & Hkey).
  rewrite Hrun. simpl. rewrite filter_app.
  rewrite (filter_none _ new).
  - rewrite app_nil_r. apply filter_filter_keep. intros p Hp.
    destruct (in_week cid w p) eqn:E; [|reflexivity].
    apply (in_week_other cid w cid' w' p Hne) in E. congruence.
  - eapply Forall_impl; [|exact Hkey]. intros p Hp.
    now apply (in_week_other cid w cid' w').
Qed.

Lemma pair_key_dec (cid cid' : Z) (w w' : date) :
  {(cid', w') = (cid, w)} + {(cid', w') <> (cid, w)}.
Proof.
  destruct (Z.eq_dec cid' cid) as [->|Hc].
  - destruct (date_eqb w' w) eqn:E.
    + apply date_eqb_eq in E. subst. now left.
    + right. intros H. inversion H; subst.
      rewrite date_eqb_refl in E. discriminate.
  - right. intros H. now inversion H.
Qed.

(** ** Round trip and overwrite *)

(** C1, as the code has it.  The amounts go through [REAL] columns, so
    what is read back is the saved frame when every amount of it is an
    [int64] that a double holds exactly, as every integer of magnitude up
    to [2^53] is: then after [save_week_data c w df], [get_week_data c w]
    returns exactly [df], whatever the store held before; so a second save
    for the same key replaces the rows of the first one and is not merged
    with them. *)
Theorem save_then_get_week_data (cid : Z) (w : date) (df : list row) (s : db) :
  Forall exact_row df ->
  value_of ((save_week_data cid w df ;; get_week_data cid w) s) = Some df /\
  (forall old : list row,
      Forall int64_row old ->
      value_of ((save_week_data cid w old ;;
                 save_week_data cid w df ;;
                 get_week_data cid w) s) = Some df).
Proof.
  intros Hdf.
  assert (H : forall s0,
    value_of ((save_week_data cid w df ;; get_week_data cid w) s0) = Some df).
  { intros s0. unfold bind at 1.
    rewrite save_week_data_returns, get_week_data_after_save. simpl.
    now rewrite (map_real_row_exact df Hdf). }
  split; [apply H|].
  intros old _. unfold bind at 1. rewrite (save_week_data_returns cid w old s).
  apply H.
Qed.

(** C2. Saving the same frame twice in a row for one key leaves the store,
    as read back by [get_week_data] for any key and by [get_customers], as
    a single save does. *)
Theorem save_week_data_twice (cid : Z) (w : date) (df : list row) (s : db) :
  (forall (cid' : Z) (w' : date),
      value_of ((save_week_data cid w df ;;
                 save_week_data cid w df ;;
                 get_week_data cid' w') s)
      = value_of ((save_week_data cid w df ;; get_week_data cid' w') s)) /\
  value_of ((save_week_data cid w df ;; save_week_data cid w df ;; get_customers) s)
  = value_of ((save_week_data cid w df ;; get_customers) s).
Proof.
  split.
  - intros cid' w'. unfold bind at 1 3.
    rewrite (save_week_data_returns cid w df s).
    set (s1 := state_of (save_week_data cid w df s)).
    unfold bind. rewrite (save_week_data_returns cid w df s1).
    destruct (pair_key_dec cid cid' w w') as [E|Hne].
    + inversion E; subst cid' w'.
      rewrite get_week_data_after_save. unfold s1 at 2.
      rewrite get_week_data_after_save. reflexivity.
    + unfold get_week_data, select_week. simpl.
      now rewrite (get_week_data_other cid w df cid' w' s1 Hne).
  - unfold bind at 1 3. rewrite (save_week_data_returns cid w df s).
    set (s1 := state_of (save_week_data cid w df s)).
    unfold bind.
    destruct (save_week_data_run cid w df s1) as (new & seq' & Hrun & _).
    rewrite Hrun. reflexivity.
Qed.

(** C10. [save_week_data c w df] changes nothing outside the key [(c, w)]:
    the customers table and its counter are as before, and so is every
    stored row, rowid included, of any other customer and week pair. *)
Theorem save_week_data_frame (cid : Z) (w : date) (df : list row) (s : db)
    (cid' : Z) (w' : date) :
  (cid', w') <> (cid, w) ->
  customers (state_of (save_week_data cid w df s)) = customers s /\
  customers_seq (state_of (save_week_data cid w df s)) = customers_seq s /\
  filter (in_week cid' w') (weekly_payments (state_of (save_week_data cid w df s)))
  = filter (in_week cid' w') (weekly_payments s).
Proof.
  intros Hne. split; [|split].
  - destruct (save_week_data_run cid w df s) as (new & seq' & Hrun & _).
    now rewrite Hrun.
  - destruct (save_week_data_run cid w df s) as (new & seq' & Hrun & _).
    now rewrite Hrun.
  - now apply get_week_data_other.
Qed.

(** ** Deleting a customer *)

(** C6. After [delete_customer c], [get_weeks_for_customer c] returns the
    empty list and [get_week_data c w] an empty frame for every week [w];
    both return and neither raises. *)
Theorem delete_customer_clears_history (cid : Z) (s : db) :
  value_of ((delete_customer cid ;; get_weeks_for_customer cid) s) = Some [] /\
  (forall w : date,
      value_of ((delete_customer cid ;; get_week_data cid w) s) = Some []).
Proof.
  split.
  - unfold bind, delete_customer, delete_customer_statements, run_statements, bind, delete_payments_of_customer,
      delete_customer_row, commit, ret, get_weeks_for_customer, select_weeks.
    simpl. now rewrite filter_filter_neg.
  - intros w.
    unfold bind, delete_customer, delete_customer_statements, run_statements, bind, delete_payments_of_customer,
      delete_customer_row, commit, ret, get_week_data, select_week.
    simpl. rewrite filter_none; [reflexivity|].
    apply Forall_forall. intros p Hp. apply filter_In in Hp.
    destruct Hp as [_ Hp]. unfold in_week.
    destruct (customer_id p =? cid); [discriminate|reflexivity].
Qed.

(** ** Adding a customer *)

Lemma name_taken_iff (n : string) (s : db) :
  name_taken n s = true <-> In n (customer_names s).
Proof.
  unfold name_taken, customer_names. rewrite existsb_exists, in_map_iff.
  split.
  - intros (cu & Hin & Heq). apply String.eqb_eq in Heq. now exists cu.
  - intros (cu & Heq & Hin). exists cu. split; [exact Hin|].
    now apply String.eqb_eq.
Qed.

Lemma add_customer_taken (n : string) (s : db) :
  name_taken n s = true -> add_customer n s = Returned tt s.
Proof.
  intros H. unfold add_customer, try_except, bind, insert_customer.
  now rewrite H.
Qed.

Lemma add_customer_fresh (n : string) (s : db) :
  name_taken n s = false ->
  add_customer n s
  = Returned tt
      (mkDb (customers s ++
               [mkCustomer (next_rowid (customers_seq s) (customer_ids s)) n])
            (next_rowid (customers_seq s) (customer_ids s))
            (weekly_payments s) (weekly_payments_seq s)).
Proof.
  intros H. unfold add_customer, try_except, bind, insert_customer.
  now rewrite H.
Qed.

Lemma add_customer_payments (n : string) (s : db) :
  weekly_payments (state_of (add_customer n s)) = weekly_payments s.
Proof.
  destruct (name_taken n s) eqn:E.
  - now rewrite add_customer_taken.
  - now rewrite add_customer_fresh.
Qed.

Lemma count_name_absent (n : string) (l : list (Z * string)) :
  ~ In n (map snd l) -> count_name n l = 0%nat.
Proof.
  unfold count_name. intros H. rewrite filter_none; [reflexivity|].
  apply Forall_forall. intros c Hc.
  destruct (String.eqb (snd c) n) eqn:E; [|reflexivity].
  apply String.eqb_eq in E. exfalso. apply H. subst n. now apply in_map.
Qed.

Lemma count_name_app (n : string) (l1 l2 : list (Z * string)) :
  count_name n (l1 ++ l2) = (count_name n l1 + count_name n l2)%nat.
Proof. unfold count_name. now rewrite filter_app, length_app. Qed.

Lemma count_name_unique (n : string) (l : list (Z * string)) :
  NoDup (map snd l) -> In n (map snd l) -> count_name n l = 1%nat.
Proof.
  induction l as [|c l IH]; simpl; intros Hnd Hin; [contradiction|].
  inversion Hnd as [|x xs Hnotin Hnd']; subst.
  change (c :: l) with ([c] ++ l). rewrite count_name_app.
  destruct Hin as [Heq|Hin].
  - rewrite (count_name_absent n l) by (now rewrite <- Heq).
    unfold count_name. simpl. apply String.eqb_eq in Heq. now rewrite Heq.
  - rewrite (IH Hnd' Hin). unfold count_name. simpl.
    destruct (String.eqb (snd c) n) eqn:E; [|reflexivity].
    apply String.eqb_eq in E. exfalso. apply Hnotin. now rewrite E.
Qed.

Lemma listed_names (s : db) :
  map snd (map (fun cu => (cust_id cu, cust_name cu)) (customers s))
  = customer_names s.
Proof. unfold customer_names. rewrite map_map. reflexivity. Qed.

(** C5. [add_customer n] for a name that is already stored returns without
    raising and leaves the state as it was; and in a store whose names are
    unique, as the [UNIQUE] column keeps them, two calls of
    [add_customer n] leave exactly one customer named [n] in the list
    [get_customers] returns. *)
Theorem add_customer_duplicate_is_noop (n : string) (s : db) :
  (In n (customer_names s) -> add_customer n s = Returned tt s) /\
  (unique_names s ->
   exists (l : list (Z * string)) (s' : db),
     (add_customer n ;; add_customer n ;; get_customers) s = Returned l s' /\
     count_name n l = 1%nat).
Proof.
  split.
  - intros Hin. now apply add_customer_taken, name_taken_iff.
  - intros Huniq. destruct (name_taken n s) eqn:E.
    + exists (map (fun cu => (cust_id cu, cust_name cu)) (customers s)), s.
      unfold bind. rewrite (add_customer_taken n s E).
      rewrite (add_customer_taken n s E). split; [reflexivity|].
      apply count_name_unique; rewrite listed_names.
      * exact Huniq.
      * now apply name_taken_iff.
    + unfold bind. rewrite (add_customer_fresh n s E).
      match goal with |- context [add_customer n ?s1] => set (s1' := s1) end.
      assert (Ht : name_taken n s1' = true).
      { apply name_taken_iff. unfold customer_names, s1'. simpl.
        rewrite map_app. apply in_or_app. right. now left. }
      rewrite (add_customer_taken n s1' Ht).
      eexists _, s1'. split; [reflexivity|].
      unfold s1'. simpl. rewrite map_app, count_name_app. simpl.
      rewrite count_name_absent.
      * unfold count_name. simpl. now rewrite String.eqb_refl.
      * rewrite listed_names. intros Hin. apply name_taken_iff in Hin. congruence.
Qed.

(** ** Invariants of the stored rows *)

Lemma delete_customer_state (cid : Z) (s : db) :
  state_of (delete_customer cid s)
  = mkDb (filter (fun cu => negb (cust_id cu =? cid)) (customers s))
         (customers_seq s)
         (filter (fun p => negb (customer_id p =? cid)) (weekly_payments s))
         (weekly_payments_seq s).
Proof. reflexivity. Qed.

Lemma inserted_nonneg cid w df new :
  inserted cid w df new -> Forall nonneg_row df -> Forall nonneg_payment new.
Proof.
  intros [Hmap _] Hdf.
  assert (H : Forall nonneg_row (map real_row df)).
  { apply Forall_map. eapply Forall_impl; [|exact Hdf].
    intros r [Ht Hr]. split; simpl; now apply to_real_nonneg. }
  rewrite <- Hmap in H.
  exact (proj1 (Forall_map row_of_payment nonneg_row new) H).
Qed.

Lemma Forall_filter_keep {A} (P : A -> Prop) (f : A -> bool) (l : list A) :
  Forall P l -> Forall P (filter f l).
Proof.
  intros H. apply Forall_forall. intros x Hx. apply filter_In in Hx.
  rewrite Forall_forall in H. now apply H.
Qed.

Lemma run_op_nonneg (o : op) (s : db) :
  nonneg_op o -> nonneg_store s -> nonneg_store (run_op o s).
Proof.
  unfold nonneg_store. destruct o as [n|cid|cid w df]; simpl; intros Ho Hs.
  - now rewrite add_customer_payments.
  - now apply Forall_filter_keep.
  - destruct (save_week_data_run cid w df s) as (new & seq' & Hrun & Hins).
    rewrite Hrun. simpl. apply Forall_app. split.
    + now apply Forall_filter_keep.
    + now apply (inserted_nonneg cid w df).
Qed.

(** C7. [save_week_data] stores what it is given, so the bound is the
    caller's: when every frame passed to it has non-negative [Total] and
    [Received], no sequence of calls of the three mutating helpers, started
    on a store without negative amounts, leaves a stored row with a
    negative [total] or [received]. *)
Theorem stored_amounts_nonnegative (ops : list op) (s : db) :
  Forall nonneg_op ops -> nonneg_store s -> nonneg_store (run_ops ops s).
Proof.
  unfold run_ops. revert s.
  induction ops as [|o ops IH]; intros s Hops Hs; simpl; [exact Hs|].
  inversion Hops; subst. apply IH; [assumption|].
  now apply run_op_nonneg.
Qed.

Lemma inserted_customer cid w df new :
  inserted cid w df new -> Forall (fun p => customer_id p = cid) new.
Proof.
  intros [_ Hkey]. eapply Forall_impl; [|exact Hkey].
  intros p Hp. now apply in_week_iff in Hp.
Qed.

Lemma run_op_ref_integrity (o : op) (s : db) :
  known_customer o s -> ref_integrity s -> ref_integrity (run_op o s).
Proof.
  unfold ref_integrity, customer_ids.
  destruct o as [n|cid|cid w df]; simpl; intros Ho Hs.
  - rewrite add_customer_payments. eapply Forall_impl; [|exact Hs].
    intros p Hp. destruct (name_taken n s) eqn:E.
    + now rewrite add_customer_taken.
    + rewrite add_customer_fresh by exact E. simpl.
      rewrite map_app. apply in_or_app. now left.
  - apply Forall_forall. intros p Hp. apply filter_In in Hp.
    destruct Hp as [Hp Hne]. rewrite Forall_forall in Hs.
    specialize (Hs p Hp). apply in_map_iff in Hs.
    destruct Hs as (cu & Hid & Hcu). apply in_map_iff. exists cu.
    split; [exact Hid|]. apply filter_In. split; [exact Hcu|].
    now rewrite Hid.
  - destruct (save_week_data_run cid w df s) as (new & seq' & Hrun & Hins).
    rewrite Hrun. simpl. apply Forall_app. split.
    + now apply Forall_filter_keep.
    + eapply Forall_impl; [|exact (inserted_customer cid w df new Hins)].
      intros p Hp. simpl in Hp. now rewrite Hp.
Qed.

Lemma delete_customer_statements_keep_references (cid : Z) (s : db) :
  ref_integrity s ->
  Forall ref_integrity (states_through (delete_customer_statements cid) s).
Proof.
  intros Hs.
  assert (H1 : ref_integrity (state_of (delete_payments_of_customer cid s))).
  { unfold ref_integrity, customer_ids in *. simpl.
    now apply Forall_filter_keep. }
  assert (H2 : ref_integrity (run_op (DeleteCustomer cid) s)).
  { now apply run_op_ref_integrity. }
  simpl. repeat constructor; [exact H1|exact H2|exact H2].
Qed.

(** C9, as the code has it. [save_week_data] does not look the customer up,
    so it is the caller that keeps the reference valid: along every
    sequence of calls in which each [save_week_data] is made for a customer
    stored at that time, started on a store whose rows all reference stored
    customers, every stored row's [customer_id] is the id of a stored
    customer; and [delete_customer], which removes the customer's rows
    before the customer, keeps it so after each of its statements. *)
Theorem guarded_calls_keep_references (ops : list op) (s : db) :
  ref_integrity s -> guarded ops s ->
  ref_integrity (run_ops ops s) /\
  (forall cid : Z,
     Forall ref_integrity
       (states_through (delete_customer_statements cid) (run_ops ops s))).
Proof.
  intros Hs Hg.
  assert (H : ref_integrity (run_ops ops s)).
  { unfold run_ops. revert s Hs Hg.
    induction ops as [|o ops IH]; intros s Hs Hg; simpl; [exact Hs|].
    destruct Hg as [Hk Hg]. apply IH; [|exact Hg].
    now apply run_op_ref_integrity. }
  split; [exact H|].
  intros cid. now apply delete_customer_statements_keep_references.
Qed.

(** ** Balance and pending total *)


(** *** The pending total *)

Lemma wrap64_small (z : Z) : int64_amount z -> wrap64 z = z.
Proof.
  unfold int64_amount, wrap64. intros H.
  rewrite Z.mod_small by lia. lia.
Qed.

Lemma wrap64_add (a x : Z) : wrap64 (wrap64 a + x) = wrap64 (a + x).
Proof.
  unfold wrap64.
  replace ((a + 2 ^ 63) mod 2 ^ 64 - 2 ^ 63 + x + 2 ^ 63)
    with ((a + 2 ^ 63) mod 2 ^ 64 + x) by lia.
  rewrite Z.add_mod_idemp_l by lia.
  replace (a + 2 ^ 63 + x) with (a + x + 2 ^ 63) by lia. reflexivity.
Qed.

Lemma sum_int64_wraps (xs : list Z) :
  sum_int64 xs = wrap64 (weekPendingTotal_spec xs).
Proof.
  unfold sum_int64.
  assert (H : forall a, fold_left (fun a x => wrap64 (a + x)) xs (wrap64 a)
                        = wrap64 (a + weekPendingTotal_spec xs)).
  { induction xs as [|x xs IH]; intros a; simpl.
    - now rewrite Z.add_0_r.
    - rewrite wrap64_add, IH. f_equal. lia. }
  change 0 with (wrap64 0) at 1. now rewrite H.
Qed.

Lemma spec_sum_app (l1 l2 : list Z) :
  weekPendingTotal_spec (l1 ++ l2)
  = weekPendingTotal_spec l1 + weekPendingTotal_spec l2.
Proof. induction l1 as [|x l1 IH]; simpl; [reflexivity|]. rewrite IH. lia. Qed.

Lemma spec_sum_perm (l l' : list Z) :
  Permutation l l' -> weekPendingTotal_spec l = weekPendingTotal_spec l'.
Proof. induction 1; simpl; lia. Qed.

Lemma spec_sum_abs (l : list Z) :
  Z.abs (weekPendingTotal_spec l) <= weekPendingTotal_spec (map Z.abs l).
Proof. induction l as [|x l IH]; simpl; lia. Qed.

Lemma float_sums_exact (l : list Z) (s : Z) :
  float_sums l s ->
  weekPendingTotal_spec (map Z.abs l) <= 2 ^ 53 ->
  s = weekPendingTotal_spec l.
Proof.
  induction 1 as [|x|l1 l2 a b H1 IH1 H2 IH2|l l' a Hp H IH]; intros Hb.
  - reflexivity.
  - simpl. lia.
  - rewrite map_app, spec_sum_app in Hb.
    pose proof (spec_sum_abs l1). pose proof (spec_sum_abs l2).
    rewrite spec_sum_app, <- IH1, <- IH2 by lia.
    apply to_real_small.
    rewrite (IH1 ltac:(lia)), (IH2 ltac:(lia)). lia.
  - rewrite <- (spec_sum_perm l l' Hp). apply IH.
    now rewrite (spec_sum_perm _ _ (Permutation_map Z.abs Hp)).
Qed.

Lemma sum_float64_is_float_sum (xs : list Z) : float_sums xs (sum_float64 xs).
Proof.
  unfold sum_float64.
  assert (H : forall l0 a, float_sums l0 a ->
    float_sums (l0 ++ xs) (fold_left (fun a x => to_real (a + x)) xs a)).
  { induction xs as [|x xs IH]; intros l0 a Ha; simpl.
    - now rewrite app_nil_r.
    - replace (l0 ++ x :: xs) with ((l0 ++ [x]) ++ xs)
        by (now rewrite <- app_assoc).
      apply IH. apply float_sums_add; [exact Ha|constructor]. }
  exact (H [] 0 float_sums_nil).
Qed.

(** C4, as the code has it.  The pending total [df["Balance"].sum()] is
    taken in the column's arithmetic over the cells that are not missing.
    For an [int64] column, as on the page, it is the sum of the balance
    over all rows whenever that sum is within [int64]; for a [float64]
    column, as read from the store or with missing cells, it is the sum
    over the rows that have a balance whenever the magnitudes add up to
    at most [2^53], in whatever order the cells are added; and it is [0]
    for a column without rows. *)
Theorem total_balance_is_sum :
  (forall xs : list Z,
     int64_amount (weekPendingTotal_spec xs) ->
     total_balance (Int64Column xs) = weekPendingTotal_spec xs) /\
  (forall xs : list cell,
     weekPendingTotal_spec (map Z.abs (present xs)) <= 2 ^ 53 ->
     total_balance (Float64Column xs) = weekPendingTotal_spec (present xs) /\
     forall s : Z, float_sums (present xs) s ->
                   s = weekPendingTotal_spec (present xs)) /\
  total_balance (Int64Column []) = 0 /\
  total_balance (Float64Column []) = 0.
Proof.
  split; [|split; [|split; reflexivity]].
  - intros xs H. simpl. rewrite sum_int64_wraps. now apply wrap64_small.
  - intros xs H. split.
    + simpl.
      exact (float_sums_exact _ _ (sum_float64_is_float_sum (present xs)) H).
    + intros s Hs. now apply float_sums_exact.
Qed.

(** ** The helpers on sample data *)

Example ravi_db_customers :
  value_of (get_customers ravi_db) = Some [(1, "Ravi"%string)].
Proof. reflexivity. Qed.

Example ravi_week_read_back :
  value_of (get_week_data 1 week_2024_06_03 ravi_db) = Some ravi_week /\
  List.length ravi_week = 7%nat /\
  total_balance (page_balance ravi_week) = 60 /\
  total_balance (stored_balance ravi_week) = 60.
Proof. repeat split; reflexivity. Qed.

Example ravi_week_overwritten :
  value_of ((save_week_data 1 week_2024_06_03 short_week ;;
             get_week_data 1 week_2024_06_03) ravi_db) = Some short_week.
Proof. reflexivity. Qed.

Example ravi_weeks_listed :
  value_of ((save_week_data 1 week_2024_06_10 short_week ;;
             get_weeks_for_customer 1) ravi_db)
  = Some [week_2024_06_03; week_2024_06_10].
Proof. reflexivity. Qed.

Example rowids_are_not_reused :
  map pay_id (weekly_payments
    (state_of (save_week_data 1 week_2024_06_03 short_week ravi_db)))
  = [8; 9; 10].
Proof. reflexivity. Qed.

(** The untouched weekly table shows a pending total of zero. *)
Example initial_week_pending :
  List.length initial_week = 7%nat /\
  total_balance (page_balance (assign_balance initial_week)) = 0.
Proof. split; reflexivity. Qed.

(** Were the customer deleted before its rows, the rows would reference
    no customer in between. *)
Example customer_row_first_dangles :
  ~ Forall ref_integrity
      (states_through
         [delete_customer_row 1; delete_payments_of_customer 1; commit]
         ravi_db).
Proof.
  intros H. inversion H as [|s0 l H1 _]; subst.
  unfold ref_integrity in H1.
  evaluate_in (customer_ids (state_of (delete_customer_row 1 ravi_db))) H1.
  evaluate_in (weekly_payments (state_of (delete_customer_row 1 ravi_db))) H1.
  inversion H1 as [|p l' Hin _]. exact Hin.
Qed.

(** [save_week_data] has no check of its own: a negative amount handed to
    it is stored as it is. *)
Example save_week_data_stores_negative :
  value_of ((save_week_data 1 week_2024_06_03 [mkRow "Mon" (-5) 0 (-5)] ;;
             get_week_data 1 week_2024_06_03) ravi_db)
  = Some [mkRow "Mon" (-5) 0 (-5)].
Proof. reflexivity. Qed.

(** A [REAL] column keeps 53 significant bits of an integer. *)
Example to_real_rounds :
  to_real (2 ^ 53) = 2 ^ 53 /\
  to_real (2 ^ 53 + 1) = 2 ^ 53 /\
  to_real (2 ^ 53 + 3) = 2 ^ 53 + 4 /\
  to_real (- (2 ^ 53 + 1)) = - 2 ^ 53 /\
  to_real (2 ^ 63 - 1) = 2 ^ 63.
Proof. repeat split; vm_compute; reflexivity. Qed.

(** A missing balance is skipped by the sum. *)
Example missing_balance_is_skipped : total_balance column_with_gap = 2.
Proof. reflexivity. Qed.

(** ** Instances *)

Lemma save_then_get_week_data_witness :
  Forall exact_row short_week /\
  value_of ((save_week_data 1 week_2024_06_03 short_week ;;
             get_week_data 1 week_2024_06_03) two_customers_db)
  = Some short_week /\
  (forall old : list row,
      Forall int64_row old ->
      value_of ((save_week_data 1 week_2024_06_03 old ;;
                 save_week_data 1 week_2024_06_03 short_week ;;
                 get_week_data 1 week_2024_06_03) two_customers_db)
      = Some short_week).
Proof.
  assert (H : Forall exact_row short_week).
  { unfold short_week, exact_row, exact_amount, int64_amount.
    repeat constructor; simpl; lia. }
  split; [exact H|].
  exact (save_then_get_week_data 1 week_2024_06_03 short_week two_customers_db H).
Defined.

(** C1, as stated, fails: an amount above [2^53] comes back rounded to the
    nearest double, so the frame read back is not the frame saved. *)
Lemma large_amount_is_read_back_rounded :
  value_of ((save_week_data 1 week_2024_06_03 large_week ;;
             get_week_data 1 week_2024_06_03) ravi_db)
  <> Some large_week.
Proof. vm_compute. intros H. discriminate H. Qed.

Lemma total_balance_is_sum_witness :
  int64_amount (weekPendingTotal_spec (map Balance ravi_week)) /\
  total_balance (page_balance ravi_week)
  = weekPendingTotal_spec (map Balance ravi_week) /\
  weekPendingTotal_spec (map Z.abs (present [None; Some 2])) <= 2 ^ 53 /\
  total_balance column_with_gap = weekPendingTotal_spec (present [None; Some 2]).
Proof.
  assert (H1 : int64_amount (weekPendingTotal_spec (map Balance ravi_week))).
  { evaluate (weekPendingTotal_spec (map Balance ravi_week)).
    unfold int64_amount. lia. }
  assert (H2 : weekPendingTotal_spec (map Z.abs (present [None; Some 2]))
               <= 2 ^ 53) by (simpl; lia).
  destruct total_balance_is_sum as (Hint & Hfloat & _).
  split; [exact H1|]. split; [exact (Hint _ H1)|].
  split; [exact H2|exact (proj1 (Hfloat _ H2))].
Defined.

(** C4, as stated, fails: on the page's [int64] column two balances of
    [2^62] add up to [-2^63], not to [2^63]. *)
Lemma int64_total_wraps :
  total_balance (page_balance huge_week)
  <> weekPendingTotal_spec (map Balance huge_week).
Proof. vm_compute. intros H. discriminate H. Qed.

Lemma save_week_data_frame_witness :
  (2, week_2024_06_03) <> (1, week_2024_06_03) /\
  customers (state_of (save_week_data 1 week_2024_06_03 short_week two_customers_db))
  = customers two_customers_db /\
  customers_seq (state_of (save_week_data 1 week_2024_06_03 short_week two_customers_db))
  = customers_seq two_customers_db /\
  filter (in_week 2 week_2024_06_03)
    (weekly_payments
       (state_of (save_week_data 1 week_2024_06_03 short_week two_customers_db)))
  = filter (in_week 2 week_2024_06_03) (weekly_payments two_customers_db).
Proof.
  split; [discriminate|].
  apply (save_week_data_frame 1 week_2024_06_03 short_week two_customers_db
           2 week_2024_06_03).
  discriminate.
Defined.

Lemma add_customer_duplicate_is_noop_witness :
  In "Ravi"%string (customer_names ravi_db) /\
  unique_names ravi_db /\
  add_customer "Ravi" ravi_db = Returned tt ravi_db /\
  exists (l : list (Z * string)) (s' : db),
    (add_customer "Ravi" ;; add_customer "Ravi" ;; get_customers) ravi_db
    = Returned l s' /\
    count_name "Ravi" l = 1%nat.
Proof.
  assert (Hin : In "Ravi"%string (customer_names ravi_db)) by (simpl; auto).
  assert (Hu : unique_names ravi_db).
  { unfold unique_names. simpl. constructor; [intros []|constructor]. }
  split; [exact Hin|]. split; [exact Hu|].
  destruct (add_customer_duplicate_is_noop "Ravi" ravi_db) as [H1 H2].
  split; [exact (H1 Hin)|exact (H2 Hu)].
Defined.

Lemma stored_amounts_nonnegative_witness :
  Forall nonneg_op sample_session /\
  nonneg_store empty_db /\
  nonneg_store (run_ops sample_session empty_db).
Proof.
  assert (Hops : Forall nonneg_op sample_session).
  { unfold sample_session, nonneg_op, nonneg_row. simpl.
    repeat constructor; simpl; lia. }
  assert (H0 : nonneg_store empty_db) by constructor.
  split; [exact Hops|]. split; [exact H0|].
  exact (stored_amounts_nonnegative sample_session empty_db Hops H0).
Defined.

Lemma guarded_calls_keep_references_witness :
  ref_integrity empty_db /\
  guarded sample_session empty_db /\
  ref_integrity (run_ops sample_session empty_db) /\
  (forall cid : Z,
     Forall ref_integrity
       (states_through (delete_customer_statements cid)
                       (run_ops sample_session empty_db))).
Proof.
  assert (H0 : ref_integrity empty_db) by constructor.
  assert (Hg : guarded sample_session empty_db).
  { cbv. tauto. }
  split; [exact H0|]. split; [exact Hg|].
  exact (guarded_calls_keep_references sample_session empty_db H0 Hg).
Defined.


(** C9, as stated, fails: saving a week for a customer id that is not
    stored leaves rows that reference no customer. *)
Lemma save_for_unknown_customer_dangles :
  ~ ref_integrity (run_ops [SaveWeek 1 week_2024_06_03 short_week] empty_db).
Proof.
  unfold ref_integrity. cbv. intros H.
  inversion H as [|p l Hin Hrest]. exact Hin.
Qed.

(** * Further properties of the helpers *)

(** ** The weeks listed for a customer *)

Lemma distinct_In (w : date) (l : list date) : In w (distinct l) <-> In w l.
Proof.
  induction l as [|a l IH]; simpl; [tauto|].
  split.
  - intros [H|H]; [now left|].
    apply filter_In in H. right. now apply IH.
  - intros [H|H]; [now left|].
    destruct (date_eqb w a) eqn:E.
    + left. symmetry. now apply date_eqb_eq.
    + right. apply filter_In. split; [now apply IH|now rewrite E].
Qed.

Lemma distinct_NoDup (l : list date) : NoDup (distinct l).
Proof.
  induction l as [|a l IH]; simpl; constructor.
  - intros H. apply filter_In in H. destruct H as [_ H].
    now rewrite date_eqb_refl in H.
  - now apply NoDup_filter.
Qed.

Lemma week_listed_iff (cid : Z) (w : date) (l : list payment) :
  In w (distinct (map week_start (filter (fun p => customer_id p =? cid) l)))
  <-> filter (in_week cid w) l <> [].
Proof.
  rewrite distinct_In, in_map_iff. split.
  - intros (p & Hw & Hp) Hnil. apply filter_In in Hp. destruct Hp as [Hp Hc].
    assert (Hin : In p (filter (in_week cid w) l)).
    { apply filter_In. split; [exact Hp|]. apply in_week_iff.
      split; [now apply Z.eqb_eq|exact Hw]. }
    rewrite Hnil in Hin. exact Hin.
  - intros Hne. destruct (filter (in_week cid w) l) as [|p l'] eqn:E;
      [congruence|].
    assert (Hin : In p (filter (in_week cid w) l)) by (rewrite E; now left).
    apply filter_In in Hin. destruct Hin as [Hp Hk].
    apply in_week_iff in Hk. destruct Hk as [Hc Hw].
    exists p. split; [exact Hw|]. apply filter_In. split; [exact Hp|].
    now apply Z.eqb_eq.
Qed.

Lemma map_nil_iff {A B} (f : A -> B) (l : list A) : map f l = [] <-> l = [].
Proof. destruct l; simpl; split; intros H; congruence. Qed.

(** X1. The weeks [get_weeks_for_customer] lists for a customer are exactly
    the weeks for which [get_week_data] returns at least one row, and no
    week is listed twice. *)
Theorem weeks_listed_are_weeks_with_rows (cid : Z) (s : db) :
  exists ws : list date,
    get_weeks_for_customer cid s = Returned ws s /\
    NoDup ws /\
    forall w : date,
      In w ws <->
      exists df, get_week_data cid w s = Returned df s /\ df <> [].
Proof.
  eexists. split; [reflexivity|]. split; [apply distinct_NoDup|].
  intros w. rewrite week_listed_iff. unfold get_week_data, select_week. split.
  - intros Hne. eexists. split; [reflexivity|].
    intros H. apply map_nil_iff in H. contradiction.
  - intros (df & Heq & Hne) Hnil. inversion Heq as [Hdf]. rewrite Hnil in Hdf.
    simpl in Hdf. congruence.
Qed.

(** X2. After [save_week_data c w df] the week [w] is listed for customer
    [c] exactly when the saved frame has a row: saving an empty frame
    takes the week out of the customer's history. *)
Theorem saved_week_is_listed (cid : Z) (w : date) (df : list row) (s : db) :
  exists (ws : list date) (s' : db),
    (save_week_data cid w df ;; get_weeks_for_customer cid) s = Returned ws s' /\
    (In w ws <-> df <> []).
Proof.
  unfold bind. rewrite save_week_data_returns.
  set (s1 := state_of (save_week_data cid w df s)).
  eexists _, s1. split; [reflexivity|].
  rewrite week_listed_iff.
  pose proof (get_week_data_after_save cid w df s) as H.
  unfold get_week_data, select_week in H. fold s1 in H.
  assert (Hdf : map row_of_payment (filter (in_week cid w) (weekly_payments s1))
                = map real_row df) by congruence.
  rewrite <- (map_nil_iff row_of_payment), Hdf, (map_nil_iff real_row). tauto.
Qed.

Lemma save_other_customer_rows cid w df cid' s :
  cid' <> cid ->
  filter (fun p => customer_id p =? cid')
         (weekly_payments (state_of (save_week_data cid w df s)))
  = filter (fun p => customer_id p =? cid') (weekly_payments s).
Proof.
  intros Hne.
  destruct (save_week_data_run cid w df s) as (new & seq' & Hrun & Hmap & Hkey).
  rewrite Hrun. simpl. rewrite filter_app. rewrite (filter_none _ new).
  - rewrite app_nil_r. apply filter_filter_keep. intros p Hp.
    apply Z.eqb_eq in Hp. unfold in_week.
    destruct (customer_id p =? cid) eqn:E; [|reflexivity].
    apply Z.eqb_eq in E. congruence.
  - eapply Forall_impl; [|exact Hkey]. intros p Hp.
    apply in_week_iff in Hp. destruct Hp as [Hc _].
    apply Z.eqb_neq. congruence.
Qed.

(** X3. [save_week_data c w df] leaves the week list of every other
    customer as it was, order included, and for customer [c] every other
    week stays listed or unlisted as before. *)
Theorem save_keeps_other_weeks (cid : Z) (w : date) (df : list row) (s : db) :
  (forall cid' : Z, cid' <> cid ->
     value_of ((save_week_data cid w df ;; get_weeks_for_customer cid') s)
     = value_of (get_weeks_for_customer cid' s)) /\
  (forall w' : date, w' <> w ->
     exists ws ws' : list date,
       value_of (get_weeks_for_customer cid s) = Some ws /\
       value_of ((save_week_data cid w df ;; get_weeks_for_customer cid) s)
       = Some ws' /\
       (In w' ws' <-> In w' ws)).
Proof.
  split.
  - intros cid' Hne. unfold bind. rewrite save_week_data_returns.
    unfold get_weeks_for_customer, select_weeks. simpl.
    now rewrite save_other_customer_rows.
  - intros w' Hne. unfold bind. rewrite save_week_data_returns.
    eexists _, _. split; [reflexivity|]. split; [reflexivity|].
    rewrite !week_listed_iff.
    rewrite (get_week_data_other cid w df cid w' s); [tauto|].
    intros H. inversion H. contradiction.
Qed.

(** ** Deleting a customer: what stays *)

Lemma filter_twice {A} (f : A -> bool) (l : list A) :
  filter f (filter f l) = filter f l.
Proof. apply filter_filter_keep. auto. Qed.

Lemma filter_map_swap {A B} (f : A -> B) (g : B -> bool) (l : list A) :
  filter g (map f l) = map f (filter (fun x => g (f x)) l).
Proof.
  induction l as [|x l IH]; simpl; [reflexivity|].
  destruct (g (f x)); simpl; now rewrite IH.
Qed.

(** X4. [delete_customer c] leaves every other customer as it was: the
    frames [get_week_data] returns for them, their week lists, and their
    entries in the customer list, which keeps its order and only loses the
    entry of id [c]. *)
Theorem delete_customer_keeps_others (cid : Z) (s : db) :
  (forall (cid' : Z) (w : date), cid' <> cid ->
     value_of ((delete_customer cid ;; get_week_data cid' w) s)
     = value_of (get_week_data cid' w s)) /\
  (forall cid' : Z, cid' <> cid ->
     value_of ((delete_customer cid ;; get_weeks_for_customer cid') s)
     = value_of (get_weeks_for_customer cid' s)) /\
  (exists l : list (Z * string),
     value_of (get_customers s) = Some l /\
     value_of ((delete_customer cid ;; get_customers) s)
     = Some (filter (fun c => negb (fst c =? cid)) l)).
Proof.
  split; [|split].
  - intros cid' w Hne.
    unfold bind, delete_customer, delete_customer_statements, run_statements, bind, delete_payments_of_customer,
      delete_customer_row, commit, ret, get_week_data, select_week. simpl.
    f_equal. f_equal. apply filter_filter_keep. intros p Hp.
    apply in_week_iff in Hp. destruct Hp as [Hc _].
    apply negb_true_iff, Z.eqb_neq. congruence.
  - intros cid' Hne.
    unfold bind, delete_customer, delete_customer_statements, run_statements, bind, delete_payments_of_customer,
      delete_customer_row, commit, ret, get_weeks_for_customer, select_weeks.
    simpl. f_equal. f_equal. f_equal. apply filter_filter_keep. intros p Hp.
    apply Z.eqb_eq in Hp. apply negb_true_iff, Z.eqb_neq. congruence.
  - eexists. split; [reflexivity|].
    unfold bind, delete_customer, delete_customer_statements, run_statements, bind, delete_payments_of_customer,
      delete_customer_row, commit, ret, get_customers, select_customers.
    simpl. f_equal. now rewrite filter_map_swap.
Qed.

(** X5. A second [delete_customer c] right after the first changes
    nothing and raises nothing. *)
Theorem delete_customer_twice (cid : Z) (s : db) :
  (delete_customer cid ;; delete_customer cid) s = delete_customer cid s.
Proof.
  unfold bind, delete_customer, delete_customer_statements, run_statements, bind, delete_payments_of_customer,
    delete_customer_row, commit, ret. simpl.
  now rewrite !filter_twice.
Qed.

(** X6. [delete_customer] for an id that is not stored returns without an
    error and, in a store whose rows all reference stored customers,
    leaves the whole state as it was. *)
Theorem delete_unknown_customer_is_noop (cid : Z) (s : db) :
  ~ In cid (customer_ids s) -> ref_integrity s ->
  delete_customer cid s = Returned tt s.
Proof.
  intros Hnot Href.
  unfold delete_customer, delete_customer_statements, run_statements, bind,
    delete_payments_of_customer, delete_customer_row, commit, ret. simpl.
  rewrite (filter_all _ (customers s)), (filter_all _ (weekly_payments s)).
  - now destruct s.
  - eapply Forall_impl; [|exact Href]. intros p Hp. simpl in Hp.
    apply negb_true_iff, Z.eqb_neq. intros E. apply Hnot. now rewrite <- E.
  - apply Forall_forall. intros cu Hcu.
    apply negb_true_iff, Z.eqb_neq. intros E. apply Hnot.
    unfold customer_ids. rewrite <- E. now apply in_map.
Qed.

(** ** Adding a customer: what it guarantees *)

(** X7. [add_customer n] never raises; afterwards a customer named [n] is
    stored, the customers stored before are still there in the same
    order at the head of the table, and no weekly row has changed. *)
Theorem add_customer_postcondition (n : string) (s : db) :
  exists s' : db,
    add_customer n s = Returned tt s' /\
    In n (customer_names s') /\
    (exists tail, customers s' = customers s ++ tail) /\
    weekly_payments s' = weekly_payments s.
Proof.
  destruct (name_taken n s) eqn:E.
  - exists s. split; [now apply add_customer_taken|].
    split; [now apply name_taken_iff|].
    split; [exists []; now rewrite app_nil_r|reflexivity].
  - eexists. split; [now apply add_customer_fresh|].
    split; [|split; [eexists; reflexivity|reflexivity]].
    unfold customer_names. simpl. rewrite map_app.
    apply in_or_app. right. now left.
Qed.

(** ** Constraints of the tables along a session *)

Lemma NoDup_map_filter {A B} (f : A -> B) (g : A -> bool) (l : list A) :
  NoDup (map f l) -> NoDup (map f (filter g l)).
Proof.
  induction l as [|x l IH]; simpl; intros H; [constructor|].
  inversion H as [|y ys Hnotin Hnd]; subst.
  destruct (g x); simpl; [|now apply IH].
  constructor; [|now apply IH].
  intros Hin. apply Hnotin. apply in_map_iff in Hin.
  destruct Hin as (z & Hz & Hin). apply filter_In in Hin.
  apply in_map_iff. exists z. tauto.
Qed.

Lemma run_op_unique_names (o : op) (s : db) :
  unique_names s -> unique_names (run_op o s).
Proof.
  unfold unique_names, customer_names.
  destruct o as [n|cid|cid w df]; simpl; intros H.
  - destruct (name_taken n s) eqn:E.
    + now rewrite add_customer_taken.
    + rewrite add_customer_fresh by exact E. simpl. rewrite map_app. simpl.
      apply NoDup_app; [exact H|constructor; [intros []|constructor]|].
      intros x Hx [Hn|[]]. subst x.
      apply name_taken_iff in Hx. congruence.
  - now apply NoDup_map_filter.
  - destruct (save_week_data_run cid w df s) as (new & seq' & Hrun & _).
    now rewrite Hrun.
Qed.

(** X8. No sequence of calls of the three mutating helpers gives two
    stored customers the same name: the names stay pairwise different
    from any store in which they are. *)
Theorem names_stay_unique (ops : list op) (s : db) :
  unique_names s -> unique_names (run_ops ops s).
Proof.
  unfold run_ops. revert s.
  induction ops as [|o ops IH]; intros s H; simpl; [exact H|].
  apply IH. now apply run_op_unique_names.
Qed.

(** ** Row ids *)

Lemma max_rowid_ge (ids : list Z) : Forall (fun i => i <= max_rowid ids) ids.
Proof.
  induction ids as [|i ids IH]; simpl; constructor; [lia|].
  eapply Forall_impl; [|exact IH]. simpl. lia.
Qed.

Lemma next_rowid_above (seq : Z) (ids : list Z) :
  seq < next_rowid seq ids /\ Forall (fun i => i < next_rowid seq ids) ids.
Proof.
  unfold next_rowid. split; [lia|].
  eapply Forall_impl; [|exact (max_rowid_ge ids)]. simpl. lia.
Qed.

Lemma StronglySorted_snoc (ids : list Z) (i : Z) :
  StronglySorted Z.lt ids -> Forall (fun j => j < i) ids ->
  StronglySorted Z.lt (ids ++ [i]).
Proof.
  induction 1 as [|a l Hl IH Ha]; simpl; intros Hlt.
  - repeat constructor.
  - inversion Hlt; subst. constructor; [now apply IH|].
    apply Forall_app. split; [exact Ha|]. now repeat constructor.
Qed.

Lemma rowids_ok_insert (ids : list Z) (seq : Z) :
  rowids_ok ids seq ->
  rowids_ok (ids ++ [next_rowid seq ids]) (next_rowid seq ids).
Proof.
  intros [Hs Hb]. destruct (next_rowid_above seq ids) as [Hseq Hids]. split.
  - now apply StronglySorted_snoc.
  - apply Forall_app. split.
    + eapply Forall_impl; [|exact Hids]. simpl. lia.
    + repeat constructor. lia.
Qed.

Lemma rowids_ok_delete {A} (f : A -> Z) (g : A -> bool) (l : list A) (seq : Z) :
  rowids_ok (map f l) seq -> rowids_ok (map f (filter g l)) seq.
Proof.
  intros [Hs Hb]. split.
  - induction l as [|x l IH]; simpl in *; [constructor|].
    inversion Hs as [|a l' Hl Ha]; subst. inversion Hb; subst.
    destruct (g x); simpl; [|now apply IH].
    constructor; [now apply IH|].
    apply Forall_forall. intros j Hj. rewrite Forall_forall in Ha. apply Ha.
    apply in_map_iff in Hj. destruct Hj as (z & Hz & Hj).
    apply filter_In in Hj. apply in_map_iff. exists z. tauto.
  - apply Forall_forall. intros j Hj. rewrite Forall_forall in Hb. apply Hb.
    apply in_map_iff in Hj. destruct Hj as (z & Hz & Hj).
    apply filter_In in Hj. apply in_map_iff. exists z. tauto.
Qed.

Lemma for_each_insert_keys cid w df : forall s,
  keys_ok s ->
  keys_ok (state_of (for_each df (fun r =>
    insert_payment cid w (Day r) (Total r) (Received r) (Balance r)) s)) /\
  customers_seq s
  = customers_seq (state_of (for_each df (fun r =>
      insert_payment cid w (Day r) (Total r) (Received r) (Balance r)) s)).
Proof.
  induction df as [|r df IH]; intros s Hs; [now split|].
  set (body := fun r0 : row =>
    insert_payment cid w (Day r0) (Total r0) (Received r0) (Balance r0)).
  fold body in IH.
  assert (Hstep : for_each (r :: df) body s
                  = for_each df body (state_of (body r s))) by reflexivity.
  rewrite Hstep.
  destruct (IH (state_of (body r s))) as [Hk Hseq].
  - destruct Hs as [Hc Hp]. split; [exact Hc|]. simpl. rewrite map_app.
    now apply rowids_ok_insert.
  - split; [exact Hk|exact Hseq].
Qed.

Lemma run_op_keys (o : op) (s : db) :
  keys_ok s ->
  keys_ok (run_op o s) /\ customers_seq s <= customers_seq (run_op o s).
Proof.
  intros Hs. destruct o as [n|cid|cid w df]; simpl.
  - destruct (name_taken n s) eqn:E.
    + rewrite add_customer_taken by exact E. simpl. split; [exact Hs|lia].
    + rewrite add_customer_fresh by exact E. simpl.
      destruct Hs as [Hc Hp]. split.
      * split; [|exact Hp]. unfold customer_ids. simpl. rewrite map_app.
        now apply rowids_ok_insert.
      * destruct (next_rowid_above (customers_seq s) (customer_ids s)). lia.
  - destruct Hs as [Hc Hp]. split; [|lia]. split.
    + now apply rowids_ok_delete.
    + now apply rowids_ok_delete.
  - unfold save_week_data, bind at 1 3, delete_week.
    set (s1 := mkDb (customers s) (customers_seq s)
                    (filter (fun p => negb (in_week cid w p)) (weekly_payments s))
                    (weekly_payments_seq s)).
    assert (H1 : keys_ok s1).
    { destruct Hs as [Hc Hp]. split; [exact Hc|]. now apply rowids_ok_delete. }
    destruct (for_each_insert_keys cid w df s1 H1) as [Hk Hseq].
    destruct (for_each_insert_run cid w df s1) as (new & seq' & Hrun & _).
    unfold bind, commit, ret. rewrite Hrun in *. simpl in *.
    split; [exact Hk|lia].
Qed.

Lemma StronglySorted_lt_NoDup (ids : list Z) :
  StronglySorted Z.lt ids -> NoDup ids.
Proof.
  induction 1 as [|a l Hl IH Ha]; constructor; [|exact IH].
  intros Hin. rewrite Forall_forall in Ha. specialize (Ha a Hin). lia.
Qed.

(** X9. The primary keys stay what [AUTOINCREMENT] makes them: started on
    a store whose rowids increase down each table and do not exceed the
    table's counter, every sequence of calls leaves such a store, so no two
    customers and no two weekly rows ever share an id, and the customers
    table's counter never goes down. *)
Theorem rowids_stay_increasing (ops : list op) (s : db) :
  keys_ok s ->
  keys_ok (run_ops ops s) /\
  NoDup (customer_ids (run_ops ops s)) /\
  NoDup (map pay_id (weekly_payments (run_ops ops s))) /\
  customers_seq s <= customers_seq (run_ops ops s).
Proof.
  intros Hs.
  assert (H : keys_ok (run_ops ops s) /\
              customers_seq s <= customers_seq (run_ops ops s)).
  { unfold run_ops. revert s Hs.
    induction ops as [|o ops IH]; intros s Hs; simpl; [split; [exact Hs|lia]|].
    destruct (run_op_keys o s Hs) as [Hk Hle].
    destruct (IH (run_op o s) Hk) as [Hk' Hle']. split; [exact Hk'|lia]. }
  destruct H as [Hk Hle]. split; [exact Hk|].
  destruct Hk as [[Hc _] [Hp _]].
  repeat split; [now apply StronglySorted_lt_NoDup
                |now apply StronglySorted_lt_NoDup|exact Hle].
Qed.

(** X10. A customer id is never given out twice: after any sequence of
    calls, deletions included, the id [add_customer] assigns to a new name
    is above every id that was stored at the start of the sequence. *)
Theorem customer_id_never_reused (ops : list op) (s : db) (n : string) :
  keys_ok s ->
  name_taken n (run_ops ops s) = false ->
  exists i : Z,
    customers (state_of (add_customer n (run_ops ops s)))
    = customers (run_ops ops s) ++ [mkCustomer i n] /\
    Forall (fun j => j < i) (customer_ids s) /\
    Forall (fun j => j < i) (customer_ids (run_ops ops s)).
Proof.
  intros Hs Hfresh.
  assert (Hle : customers_seq s <= customers_seq (run_ops ops s)).
  { unfold run_ops. revert s Hs Hfresh.
    induction ops as [|o ops IH]; intros s Hs Hfresh; simpl; [lia|].
    destruct (run_op_keys o s Hs) as [Hk Hle].
    specialize (IH (run_op o s) Hk Hfresh). simpl in IH. lia. }
  rewrite add_customer_fresh by exact Hfresh. simpl.
  eexists. split; [reflexivity|].
  destruct (next_rowid_above (customers_seq (run_ops ops s))
              (customer_ids (run_ops ops s))) as [Hseq Hids].
  split; [|exact Hids].
  destruct Hs as [[_ Hb] _].
  eapply Forall_impl; [|exact Hb]. simpl. lia.
Qed.

(** ** The customer the page acts on *)

Lemma dict_set_keys (k k' : string) (v : Z) (d : list (string * Z)) :
  In k' (dict_keys (dict_set k v d)) <-> k' = k \/ In k' (dict_keys d).
Proof.
  induction d as [|[k0 v0] d IH]; simpl.
  - split; intros [H|H]; auto; contradiction.
  - destruct (String.eqb k0 k) eqn:E; simpl.
    + apply String.eqb_eq in E. subst k0. split; intros H; [tauto|].
      destruct H as [H|[H|H]]; auto.
    + rewrite IH. tauto.
Qed.

Lemma dict_get_set_same (k : string) (v : Z) (d : list (string * Z)) :
  dict_get k (dict_set k v d) = Some v.
Proof.
  induction d as [|[k0 v0] d IH]; simpl.
  - now rewrite String.eqb_refl.
  - destruct (String.eqb k0 k) eqn:E; simpl; now rewrite E.
Qed.

Lemma dict_get_set_other (k k' : string) (v : Z) (d : list (string * Z)) :
  k' <> k -> dict_get k' (dict_set k v d) = dict_get k' d.
Proof.
  intros Hne. induction d as [|[k0 v0] d IH]; simpl.
  - apply String.eqb_neq in Hne. rewrite String.eqb_sym. now rewrite Hne.
  - destruct (String.eqb k0 k) eqn:E; simpl.
    + apply String.eqb_eq in E. subst k0.
      assert (E' : String.eqb k k' = false)
        by (apply String.eqb_neq; congruence).
      now rewrite E'.
    + now rewrite IH.
Qed.

Lemma customer_dict_snoc (cs : list (Z * string)) (c : Z * string) :
  customer_dict (cs ++ [c]) = dict_set (snd c) (fst c) (customer_dict cs).
Proof. unfold customer_dict. now rewrite fold_left_app. Qed.

Lemma customer_dict_keys (cs : list (Z * string)) (k : string) :
  In k (dict_keys (customer_dict cs)) <-> In k (map snd cs).
Proof.
  induction cs as [|c cs IH] using rev_ind; [simpl; tauto|].
  rewrite customer_dict_snoc, dict_set_keys, map_app, in_app_iff, IH.
  simpl. intuition congruence.
Qed.

Lemma customer_dict_get (cs : list (Z * string)) (k : string) :
  In k (map snd cs) ->
  exists cid, dict_get k (customer_dict cs) = Some cid /\ In (cid, k) cs.
Proof.
  induction cs as [|c cs IH] using rev_ind; [intros []|].
  rewrite customer_dict_snoc, map_app, in_app_iff. simpl. intros Hin.
  destruct (string_dec k (snd c)) as [->|Hne].
  - exists (fst c). rewrite dict_get_set_same. split; [reflexivity|].
    apply in_or_app. right. left. now destruct c.
  - rewrite dict_get_set_other by exact Hne.
    destruct Hin as [Hin|[Heq|[]]]; [|congruence].
    destruct (IH Hin) as (cid & Hget & Hin'). exists cid.
    split; [exact Hget|]. apply in_or_app. now left.
Qed.

(** X11. The names the page offers for selection, the keys of
    [customer_dict], are exactly the stored names, and for each of them
    [customer_dict[selected_customer]] is found (no [KeyError]) and is the
    id of a stored customer of that name; so the page calls
    [save_week_data] and [delete_customer] only for stored customers. *)
Theorem selected_customer_is_stored (s : db) (selected : string) :
  exists cs : list (Z * string),
    get_customers s = Returned cs s /\
    (In selected (dict_keys (customer_dict cs)) <->
     In selected (customer_names s)) /\
    (In selected (dict_keys (customer_dict cs)) ->
     exists cid : Z,
       dict_get selected (customer_dict cs) = Some cid /\
       In (cid, selected) cs /\
       forall (w : date) (df : list row), known_customer (SaveWeek cid w df) s).
Proof.
  eexists. split; [reflexivity|]. split.
  - now rewrite customer_dict_keys, listed_names.
  - intros Hin. apply customer_dict_keys in Hin.
    destruct (customer_dict_get _ _ Hin) as (cid & Hget & Hin').
    exists cid. split; [exact Hget|]. split; [exact Hin'|].
    intros w df. simpl. unfold customer_ids.
    apply in_map_iff in Hin'. destruct Hin' as (cu & Heq & Hcu).
    inversion Heq; subst. now apply in_map.
Qed.

(** ** The stored balance *)



(** ** Saves for different keys *)

Lemma read_after_save_other cid w df cid' w' s :
  (cid', w') <> (cid, w) ->
  value_of (get_week_data cid' w' (state_of (save_week_data cid w df s)))
  = value_of (get_week_data cid' w' s).
Proof.
  intros Hne. unfold get_week_data, select_week. simpl.
  now rewrite get_week_data_other.
Qed.

Lemma read_after_save_same cid w df s :
  value_of (get_week_data cid w (state_of (save_week_data cid w df s)))
  = Some (map real_row df).
Proof. now rewrite get_week_data_after_save. Qed.

(** X14. Saves for two different customer and week pairs do not interfere:
    in either order they leave the same frame to be read back for every
    key. *)
Theorem saves_of_different_keys_commute
    (c1 c2 : Z) (w1 w2 : date) (df1 df2 : list row) (s : db) :
  (c1, w1) <> (c2, w2) ->
  forall (cid : Z) (w : date),
    value_of ((save_week_data c1 w1 df1 ;; save_week_data c2 w2 df2 ;;
               get_week_data cid w) s)
    = value_of ((save_week_data c2 w2 df2 ;; save_week_data c1 w1 df1 ;;
                 get_week_data cid w) s).
Proof.
  intros Hne.
  assert (Hrun : forall ca wa dfa cb wb dfb cid w,
    value_of ((save_week_data ca wa dfa ;; save_week_data cb wb dfb ;;
               get_week_data cid w) s)
    = value_of (get_week_data cid w
        (state_of (save_week_data cb wb dfb
           (state_of (save_week_data ca wa dfa s)))))).
  { intros. unfold bind at 1. rewrite (save_week_data_returns ca wa dfa s).
    unfold bind. now rewrite save_week_data_returns. }
  intros cid w. rewrite !Hrun.
  destruct (pair_key_dec c1 cid w1 w) as [E1|N1].
  - inversion E1; subst cid w.
    rewrite read_after_save_other by exact Hne.
    now rewrite !read_after_save_same.
  - destruct (pair_key_dec c2 cid w2 w) as [E2|N2].
    + inversion E2; subst cid w.
      rewrite read_after_save_same.
      rewrite read_after_save_other by exact N1.
      now rewrite read_after_save_same.
    + now rewrite !read_after_save_other by assumption.
Qed.

(** ** A new customer's history *)

(** X15. A customer just added under a new name has no history: in a store
    with increasing rowids whose rows all reference stored customers, the
    id given to the new customer is referenced by no stored row, so its
    week list and every one of its weeks read back empty. *)
Theorem new_customer_has_no_history (n : string) (s : db) :
  keys_ok s -> ref_integrity s -> name_taken n s = false ->
  exists (i : Z) (s' : db),
    add_customer n s = Returned tt s' /\
    In (i, n) (map (fun cu => (cust_id cu, cust_name cu)) (customers s')) /\
    value_of (get_weeks_for_customer i s') = Some [] /\
    (forall w : date, value_of (get_week_data i w s') = Some []).
Proof.
  intros Hk Href Hfresh.
  destruct (next_rowid_above (customers_seq s) (customer_ids s)) as [_ Hids].
  set (i := next_rowid (customers_seq s) (customer_ids s)) in *.
  assert (Hnone : Forall (fun p => (customer_id p =? i) = false)
                         (weekly_payments s)).
  { eapply Forall_impl; [|exact Href]. intros p Hp. simpl in Hp.
    rewrite Forall_forall in Hids. specialize (Hids _ Hp).
    apply Z.eqb_neq. lia. }
  eexists i, _. split; [now apply add_customer_fresh|]. simpl.
  split; [|split].
  - rewrite map_app. apply in_or_app. right. now left.
  - unfold get_weeks_for_customer, select_weeks. simpl.
    now rewrite (filter_none _ _ Hnone).
  - intros w. unfold get_week_data, select_week. simpl.
    rewrite filter_none; [reflexivity|].
    eapply Forall_impl; [|exact Hnone]. intros p Hp. simpl in Hp.
    unfold in_week. now rewrite Hp.
Qed.

(** ** The week a save is filed under *)

Lemma weekday_range (o : Z) : 0 <= weekday o <= 6.
Proof. unfold weekday. pose proof (Z.mod_pos_bound (o + 6) 7). lia. Qed.

Lemma date_minus_days_in_range (o n : Z) :
  0 < o - n <= MAXORDINAL -> date_minus_days o n = Some (o - n).
Proof.
  intros [H1 H2]. unfold date_minus_days. cbv zeta.
  destruct (Z.ltb_spec 0 (o - n)); [|lia].
  destruct (Z.leb_spec (o - n) MAXORDINAL); [reflexivity|lia].
Qed.

(** X16. When both reads of the clock give the same valid date, the week
    start is computed without an [OverflowError] and is the Monday on or
    before that date, at most six days back. *)
Theorem week_start_is_monday (today : Z) :
  1 <= today <= MAXORDINAL ->
  exists m : Z,
    current_week_start today today = Some m /\
    weekday m = 0 /\
    today - 6 <= m <= today /\
    1 <= m.
Proof.
  intros Hrange. unfold current_week_start.
  pose proof (weekday_range today) as Hwd.
  assert (Hmon : weekday (today - weekday today) = 0).
  { unfold weekday. Z.div_mod_to_equations. lia. }
  assert (Hpos : 1 <= today - weekday today).
  { unfold weekday in *. Z.div_mod_to_equations. lia. }
  exists (today - weekday today).
  split; [apply date_minus_days_in_range; lia|].
  split; [exact Hmon|]. lia.
Qed.

(** X17. All seven days of a week give the same week start: computed on
    the Monday [m] or on any of the six days after it, the week start is
    [m], so saves made on different days of one week share a key. *)
Theorem same_week_same_start (m d : Z) :
  1 <= m -> weekday m = 0 -> 0 <= d <= 6 -> m + d <= MAXORDINAL ->
  current_week_start (m + d) (m + d) = Some m.
Proof.
  intros Hm Hmon Hd Hmax. unfold current_week_start.
  assert (Hwd : weekday (m + d) = d).
  { unfold weekday in *. Z.div_mod_to_equations. lia. }
  rewrite Hwd, date_minus_days_in_range by lia.
  f_equal. lia.
Qed.

(** X18. When midnight passes between the two reads of the clock, so that
    the weekday is taken from the next day, the computed week start is a
    Sunday and not a Monday. *)
Theorem week_start_across_midnight (today : Z) :
  8 <= today -> today + 1 <= MAXORDINAL ->
  exists m : Z,
    current_week_start today (today + 1) = Some m /\
    weekday m = 6.
Proof.
  intros Hlo Hhi. unfold current_week_start.
  pose proof (weekday_range (today + 1)) as Hwd.
  exists (today - weekday (today + 1)).
  split; [apply date_minus_days_in_range; lia|].
  unfold weekday. Z.div_mod_to_equations. lia.
Qed.

(** ** Deleting and adding again *)

Lemma NoDup_map_inj {A B} (f : A -> B) (l : list A) (x y : A) :
  NoDup (map f l) -> In x l -> In y l -> f x = f y -> x = y.
Proof.
  induction l as [|a l IH]; simpl; intros Hnd Hx Hy Hf; [contradiction|].
  inversion Hnd as [|b bs Hnotin Hnd']; subst.
  destruct Hx as [Hx|Hx], Hy as [Hy|Hy].
  - congruence.
  - subst a. exfalso. apply Hnotin. rewrite Hf. now apply in_map.
  - subst a. exfalso. apply Hnotin. rewrite <- Hf. now apply in_map.
  - now apply IH.
Qed.

(** X19. The name of a deleted customer is free again: in a store with
    unique names and increasing rowids, [delete_customer] of the customer
    named [n] followed by [add_customer n] lists the remaining customers
    followed by a new customer named [n], whose id is above the deleted
    one's. *)
Theorem deleted_name_can_be_added_again (cid : Z) (n : string) (s : db) :
  unique_names s -> keys_ok s -> In (mkCustomer cid n) (customers s) ->
  exists (i : Z) (s' : db),
    (delete_customer cid ;; add_customer n ;; get_customers) s
    = Returned (filter (fun c => negb (fst c =? cid))
                       (map (fun cu => (cust_id cu, cust_name cu)) (customers s))
                ++ [(i, n)]) s' /\
    cid < i.
Proof.
  intros Hu Hk Hin.
  unfold bind at 1. change (delete_customer cid s)
    with (Returned tt (state_of (delete_customer cid s))).
  rewrite delete_customer_state.
  set (s1 := mkDb (filter (fun cu => negb (cust_id cu =? cid)) (customers s))
                  (customers_seq s)
                  (filter (fun p => negb (customer_id p =? cid)) (weekly_payments s))
                  (weekly_payments_seq s)).
  assert (Hfree : name_taken n s1 = false).
  { destruct (name_taken n s1) eqn:E; [|reflexivity]. exfalso.
    apply name_taken_iff in E. unfold customer_names, s1 in E. simpl in E.
    apply in_map_iff in E. destruct E as (cu & Hname & Hcu).
    apply filter_In in Hcu. destruct Hcu as [Hcu Hid].
    assert (Heq : cu = mkCustomer cid n).
    { apply (NoDup_map_inj cust_name (customers s)); auto. }
    subst cu. simpl in Hid. now rewrite Z.eqb_refl in Hid. }
  unfold bind. rewrite (add_customer_fresh n s1 Hfree).
  eexists _, _. split.
  - unfold get_customers, select_customers. simpl.
    rewrite map_app, filter_map_swap. reflexivity.
  - destruct (next_rowid_above (customers_seq s1) (customer_ids s1)) as [Hseq _].
    destruct Hk as [[_ Hb] _]. rewrite Forall_forall in Hb.
    assert (Hle : cid <= customers_seq s).
    { apply Hb. unfold customer_ids.
      change cid with (cust_id (mkCustomer cid n)). now apply in_map. }
    simpl in Hseq. simpl. lia.
Qed.

(** ** Instances of the further properties *)

Lemma keys_ok_two_customers : keys_ok two_customers_db.
Proof.
  unfold keys_ok, rowids_ok.
  evaluate (customer_ids two_customers_db).
  evaluate (customers_seq two_customers_db).
  evaluate (map pay_id (weekly_payments two_customers_db)).
  evaluate (weekly_payments_seq two_customers_db).
  repeat split; repeat constructor; lia.
Defined.

Lemma ref_integrity_two_customers : ref_integrity two_customers_db.
Proof.
  unfold ref_integrity.
  evaluate (customer_ids two_customers_db).
  evaluate (weekly_payments two_customers_db).
  repeat (apply Forall_cons; [simpl; auto|]). apply Forall_nil.
Defined.

Lemma save_keeps_other_weeks_witness :
  (2 <> 1 /\
   value_of ((save_week_data 1 week_2024_06_03 short_week ;;
              get_weeks_for_customer 2) two_customers_db)
   = value_of (get_weeks_for_customer 2 two_customers_db)) /\
  (week_2024_06_10 <> week_2024_06_03 /\
   exists ws ws' : list date,
     value_of (get_weeks_for_customer 1 two_customers_db) = Some ws /\
     value_of ((save_week_data 1 week_2024_06_03 short_week ;;
                get_weeks_for_customer 1) two_customers_db) = Some ws' /\
     (In week_2024_06_10 ws' <-> In week_2024_06_10 ws)).
Proof.
  destruct (save_keeps_other_weeks 1 week_2024_06_03 short_week two_customers_db)
    as [H1 H2].
  assert (Hc : 2 <> 1) by lia.
  assert (Hw : week_2024_06_10 <> week_2024_06_03) by discriminate.
  split; split; [exact Hc|exact (H1 2 Hc)|exact Hw|exact (H2 _ Hw)].
Defined.

Lemma delete_customer_keeps_others_witness :
  2 <> 1 /\
  value_of ((delete_customer 1 ;; get_week_data 2 week_2024_06_03) two_customers_db)
  = value_of (get_week_data 2 week_2024_06_03 two_customers_db) /\
  value_of ((delete_customer 1 ;; get_weeks_for_customer 2) two_customers_db)
  = value_of (get_weeks_for_customer 2 two_customers_db).
Proof.
  destruct (delete_customer_keeps_others 1 two_customers_db) as (H1 & H2 & _).
  assert (Hc : 2 <> 1) by lia.
  split; [exact Hc|]. split; [exact (H1 2 week_2024_06_03 Hc)|exact (H2 2 Hc)].
Defined.

Lemma delete_unknown_customer_is_noop_witness :
  ref_integrity two_customers_db /\
  delete_customer 5 two_customers_db = Returned tt two_customers_db.
Proof.
  split; [exact ref_integrity_two_customers|].
  apply (delete_unknown_customer_is_noop 5 two_customers_db).
  - evaluate (customer_ids two_customers_db). simpl. intros [H|[H|[]]]; lia.
  - exact ref_integrity_two_customers.
Defined.

Lemma names_stay_unique_witness :
  unique_names empty_db /\ unique_names (run_ops sample_session empty_db).
Proof.
  assert (H0 : unique_names empty_db) by constructor.
  split; [exact H0|exact (names_stay_unique sample_session empty_db H0)].
Defined.

Lemma rowids_stay_increasing_witness :
  keys_ok empty_db /\
  keys_ok (run_ops sample_session empty_db) /\
  NoDup (customer_ids (run_ops sample_session empty_db)) /\
  NoDup (map pay_id (weekly_payments (run_ops sample_session empty_db))) /\
  customers_seq empty_db <= customers_seq (run_ops sample_session empty_db).
Proof.
  assert (H0 : keys_ok empty_db) by (repeat split; constructor).
  split; [exact H0|exact (rowids_stay_increasing sample_session empty_db H0)].
Defined.

Lemma customer_id_never_reused_witness :
  keys_ok two_customers_db /\
  name_taken "Acme" (run_ops [DeleteCustomer 2] two_customers_db) = false /\
  exists i : Z,
    customers (state_of (add_customer "Acme"
                 (run_ops [DeleteCustomer 2] two_customers_db)))
    = customers (run_ops [DeleteCustomer 2] two_customers_db)
      ++ [mkCustomer i "Acme"] /\
    Forall (fun j => j < i) (customer_ids two_customers_db) /\
    Forall (fun j => j < i)
           (customer_ids (run_ops [DeleteCustomer 2] two_customers_db)).
Proof.
  assert (Hf : name_taken "Acme" (run_ops [DeleteCustomer 2] two_customers_db)
               = false) by reflexivity.
  split; [exact keys_ok_two_customers|]. split; [exact Hf|].
  exact (customer_id_never_reused [DeleteCustomer 2] two_customers_db "Acme"
           keys_ok_two_customers Hf).
Defined.

Lemma selected_customer_is_stored_witness :
  In "Acme"%string (customer_names two_customers_db) /\
  exists cs : list (Z * string),
    get_customers two_customers_db = Returned cs two_customers_db /\
    (In "Acme"%string (dict_keys (customer_dict cs)) <->
     In "Acme"%string (customer_names two_customers_db)) /\
    (In "Acme"%string (dict_keys (customer_dict cs)) ->
     exists cid : Z,
       dict_get "Acme" (customer_dict cs) = Some cid /\
       In (cid, "Acme"%string) cs /\
       forall (w : date) (df : list row),
         known_customer (SaveWeek cid w df) two_customers_db).
Proof.
  assert (Hin : In "Acme"%string (customer_names two_customers_db)).
  { evaluate (customer_names two_customers_db). simpl. auto. }
  split; [exact Hin|].
  exact (selected_customer_is_stored two_customers_db "Acme").
Defined.


Lemma saves_of_different_keys_commute_witness :
  (1, week_2024_06_03) <> (2, week_2024_06_03) /\
  forall (cid : Z) (w : date),
    value_of ((save_week_data 1 week_2024_06_03 short_week ;;
               save_week_data 2 week_2024_06_03 ravi_week ;;
               get_week_data cid w) two_customers_db)
    = value_of ((save_week_data 2 week_2024_06_03 ravi_week ;;
                 save_week_data 1 week_2024_06_03 short_week ;;
                 get_week_data cid w) two_customers_db).
Proof.
  assert (Hne : (1, week_2024_06_03) <> (2, week_2024_06_03)) by discriminate.
  split; [exact Hne|].
  exact (saves_of_different_keys_commute 1 2 week_2024_06_03
           week_2024_06_03 short_week ravi_week two_customers_db Hne).
Defined.

Lemma new_customer_has_no_history_witness :
  keys_ok two_customers_db /\
  ref_integrity two_customers_db /\
  name_taken "Meena" two_customers_db = false /\
  exists (i : Z) (s' : db),
    add_customer "Meena" two_customers_db = Returned tt s' /\
    In (i, "Meena"%string)
       (map (fun cu => (cust_id cu, cust_name cu)) (customers s')) /\
    value_of (get_weeks_for_customer i s') = Some [] /\
    (forall w : date, value_of (get_week_data i w s') = Some []).
Proof.
  assert (Hf : name_taken "Meena" two_customers_db = false) by reflexivity.
  split; [exact keys_ok_two_customers|].
  split; [exact ref_integrity_two_customers|]. split; [exact Hf|].
  exact (new_customer_has_no_history "Meena" two_customers_db
           keys_ok_two_customers ref_integrity_two_customers Hf).
Defined.

Lemma week_start_is_monday_witness :
  1 <= ordinal_2024_06_03 + 3 <= MAXORDINAL /\
  exists m : Z,
    current_week_start (ordinal_2024_06_03 + 3) (ordinal_2024_06_03 + 3) = Some m /\
    weekday m = 0 /\
    ordinal_2024_06_03 + 3 - 6 <= m <= ordinal_2024_06_03 + 3 /\
    1 <= m.
Proof.
  assert (H : 1 <= ordinal_2024_06_03 + 3 <= MAXORDINAL)
    by (unfold ordinal_2024_06_03, MAXORDINAL; lia).
  split; [exact H|exact (week_start_is_monday (ordinal_2024_06_03 + 3) H)].
Defined.

Lemma same_week_same_start_witness :
  1 <= ordinal_2024_06_03 /\
  weekday ordinal_2024_06_03 = 0 /\
  0 <= 4 <= 6 /\
  ordinal_2024_06_03 + 4 <= MAXORDINAL /\
  current_week_start (ordinal_2024_06_03 + 4) (ordinal_2024_06_03 + 4)
  = Some ordinal_2024_06_03.
Proof.
  assert (H1 : 1 <= ordinal_2024_06_03) by (unfold ordinal_2024_06_03; lia).
  assert (H2 : weekday ordinal_2024_06_03 = 0) by reflexivity.
  assert (H3 : 0 <= 4 <= 6) by lia.
  assert (H4 : ordinal_2024_06_03 + 4 <= MAXORDINAL)
    by (unfold ordinal_2024_06_03, MAXORDINAL; lia).
  repeat (split; [assumption|]).
  exact (same_week_same_start ordinal_2024_06_03 4 H1 H2 H3 H4).
Defined.

Lemma week_start_across_midnight_witness :
  8 <= ordinal_2024_06_03 + 6 /\
  ordinal_2024_06_03 + 6 + 1 <= MAXORDINAL /\
  exists m : Z,
    current_week_start (ordinal_2024_06_03 + 6) (ordinal_2024_06_03 + 6 + 1)
    = Some m /\
    weekday m = 6.
Proof.
  assert (H1 : 8 <= ordinal_2024_06_03 + 6) by (unfold ordinal_2024_06_03; lia).
  assert (H2 : ordinal_2024_06_03 + 6 + 1 <= MAXORDINAL)
    by (unfold ordinal_2024_06_03, MAXORDINAL; lia).
  split; [exact H1|]. split; [exact H2|].
  exact (week_start_across_midnight (ordinal_2024_06_03 + 6) H1 H2).
Defined.

Lemma deleted_name_can_be_added_again_witness :
  unique_names two_customers_db /\
  keys_ok two_customers_db /\
  In (mkCustomer 2 "Acme") (customers two_customers_db) /\
  exists (i : Z) (s' : db),
    (delete_customer 2 ;; add_customer "Acme" ;; get_customers) two_customers_db
    = Returned (filter (fun c => negb (fst c =? 2))
                       (map (fun cu => (cust_id cu, cust_name cu))
                            (customers two_customers_db))
                ++ [(i, "Acme"%string)]) s' /\
    2 < i.
Proof.
  assert (Hu : unique_names two_customers_db).
  { unfold unique_names. evaluate (customer_names two_customers_db).
    repeat constructor; simpl; intuition discriminate. }
  assert (Hin : In (mkCustomer 2 "Acme") (customers two_customers_db)).
  { evaluate (customers two_customers_db). simpl. auto. }
  split; [exact Hu|]. split; [exact keys_ok_two_customers|].
  split; [exact Hin|].
  exact (deleted_name_can_be_added_again 2 "Acme" two_customers_db
           Hu keys_ok_two_customers Hin).
Defined.
